(** * Authentication core of the dashboard backend

    A shallow embedding of

      - [backend/users/models.py]                   (User, BlacklistedToken, AuthLog)
      - [backend/users/application/auth_service.py] (LoginUseCase)
      - [backend/users/presentation/views.py]       (AuthViewSet.refresh)
      - [backend/core/permissions.py]               (IsOwnerOrAdmin)

    The three database tables are finite maps and a list kept in one
    [World]; every method that touches the database or reads the clock is a
    computation in the state monad [M] over that world.  A Python method
    that mutates [self] returns the mutated object.  Timestamps are integers
    (microseconds, the resolution of Python's [datetime]), and each call of
    [timezone.now()] is a reading of its own of the wall clock.  What comes
    from Django, the REST framework and the token library (password hashing,
    token minting and parsing, request validation, time formatting) is a
    parameter of the development. *)

From Stdlib Require Import ZArith List Sorting.Sorted.
From stdpp Require Import base option list sorting gmap strings.

Local Open Scope string_scope.
Local Open Scope Z_scope.

(** ** Python values that appear in the result dictionaries *)

#[warnings="-register-all"]
Inductive PyVal : Type :=
  | PyNone
  | PyBool (b : bool)
  | PyInt (z : Z)
  | PyStr (s : string)
  | PyDict (items : list (string * PyVal)).

(** A [dict] keeps its keys in insertion order. *)
Abbreviation Dict := (list (string * PyVal)).

Fixpoint dict_get (key : string) (d : Dict) : option PyVal :=
  match d with
  | [] => None
  | (k, v) :: rest => if String.eqb k key then Some v else dict_get key rest
  end.

Definition dict_keys (d : Dict) : list string := map fst d.

(** ** Rows of the three tables *)

Module User.
Record t : Type := mk {
  id : Z;
  username : string;
  password : string;              (* the stored hash *)
  email : string;
  role : string;
  full_name : string;
  department : string;
  phone : string;
  failed_login_attempts : Z;
  account_locked_until : option Z;
  last_login : option Z;
  last_login_ip : option string;
  is_active : bool
}.

Definition set_failed_login_attempts (n : Z) (u : t) : t :=
  mk (id u) (username u) (password u) (email u) (role u) (full_name u)
     (department u) (phone u) n (account_locked_until u) (last_login u)
     (last_login_ip u) (is_active u).

Definition set_account_locked_until (l : option Z) (u : t) : t :=
  mk (id u) (username u) (password u) (email u) (role u) (full_name u)
     (department u) (phone u) (failed_login_attempts u) l (last_login u)
     (last_login_ip u) (is_active u).

Definition set_last_login (l : option Z) (u : t) : t :=
  mk (id u) (username u) (password u) (email u) (role u) (full_name u)
     (department u) (phone u) (failed_login_attempts u)
     (account_locked_until u) l (last_login_ip u) (is_active u).

Definition set_last_login_ip (ip : option string) (u : t) : t :=
  mk (id u) (username u) (password u) (email u) (role u) (full_name u)
     (department u) (phone u) (failed_login_attempts u)
     (account_locked_until u) (last_login u) ip (is_active u).

(** The columns named in a [save(update_fields=[...])] of this module. *)
Inductive field : Type :=
  | f_failed_login_attempts
  | f_account_locked_until
  | f_last_login
  | f_last_login_ip.

(** Copy one column of the in-memory object [self] into a stored row. *)
Definition write_field (self : t) (f : field) (row : t) : t :=
  match f with
  | f_failed_login_attempts =>
      set_failed_login_attempts (failed_login_attempts self) row
  | f_account_locked_until =>
      set_account_locked_until (account_locked_until self) row
  | f_last_login => set_last_login (last_login self) row
  | f_last_login_ip => set_last_login_ip (last_login_ip self) row
  end.

(* RBAC helper methods *)
Definition is_admin (self : t) : bool := String.eqb (role self) "admin".

Definition is_manager_or_above (self : t) : bool :=
  String.eqb (role self) "admin" || String.eqb (role self) "manager".
End User.

Module BlacklistedToken.
Record t : Type := mk {
  token : string;
  user : Z;                       (* foreign key: id of the owning user *)
  reason : string;
  expires_at : Z;
  created_at : Z
}.
End BlacklistedToken.

Module AuthLog.
Record t : Type := mk {
  user : option Z;                (* nullable foreign key *)
  username_attempted : string;
  event_type : string;
  ip_address : string;
  user_agent : string;
  success : bool;
  failure_reason : string;
  details : option PyVal;
  created_at : Z
}.
End AuthLog.

(** ** The world: database tables and the number of clock readings so far

    [users] is indexed by its unique [username] column and
    [blacklisted_tokens] by its unique [token] column; [auth_logs] keeps
    its rows in insertion order. *)

Record World : Type := mkWorld {
  users : gmap string User.t;
  blacklisted_tokens : gmap string BlacklistedToken.t;
  auth_logs : list AuthLog.t;
  ticks : nat
}.

Definition set_users (f : gmap string User.t → gmap string User.t) (w : World) : World :=
  mkWorld (f (users w)) (blacklisted_tokens w) (auth_logs w) (ticks w).

Definition set_blacklisted_tokens
    (f : gmap string BlacklistedToken.t → gmap string BlacklistedToken.t)
    (w : World) : World :=
  mkWorld (users w) (f (blacklisted_tokens w)) (auth_logs w) (ticks w).

Definition set_auth_logs (f : list AuthLog.t → list AuthLog.t) (w : World) : World :=
  mkWorld (users w) (blacklisted_tokens w) (f (auth_logs w)) (ticks w).

Definition set_ticks (f : nat → nat) (w : World) : World :=
  mkWorld (users w) (blacklisted_tokens w) (auth_logs w) (f (ticks w)).

(** ** The state monad *)

Definition M (A : Type) : Type := World → A * World.

Definition ret {A} (a : A) : M A := λ w, (a, w).

Definition bind {A B} (m : M A) (k : A → M B) : M B :=
  λ w, let (a, w') := m w in k a w'.

Declare Scope m_scope.
Delimit Scope m_scope with M.
Notation "x <- c ;; k" := (bind c (λ x, k))
  (at level 100, c at next level, right associativity) : m_scope.
Notation "c ;; k" := (bind c (λ _, k))
  (at level 100, right associativity) : m_scope.
Local Open Scope m_scope.

(** [timedelta(minutes=m)], in microseconds. *)
Definition timedelta_minutes (m : Z) : Z := m * 60 * 1000000.

Module AuthErrorCodes.
Definition INVALID_CREDENTIALS := "AUTH-001".
Definition INACTIVE_ACCOUNT := "AUTH-002".
Definition ACCOUNT_LOCKED := "AUTH-003".
Definition LOGOUT_FAILED := "AUTH-004".
Definition TOKEN_REVOKED := "AUTH-005".
Definition TOKEN_REFRESH_FAILED := "AUTH-006".
End AuthErrorCodes.

(** [_error_response] and [_success_response] of [LoginUseCase]. *)
Definition _error_response (error_code message : string) : Dict :=
  [("success", PyBool false);
   ("error_code", PyStr error_code);
   ("message", PyStr message)].

Definition _success_response (data : Dict) : Dict :=
  ("success", PyBool true) :: data.

(** [_serialize_user] of [LoginUseCase]. *)
Definition _serialize_user (user : User.t) : Dict :=
  [("id", PyInt (User.id user));
   ("username", PyStr (User.username user));
   ("email", PyStr (User.email user));
   ("role", PyStr (User.role user));
   ("full_name", PyStr (User.full_name user));
   ("department", PyStr (User.department user))].

(** The dataclass [AuthEventData]; [failure_reason] defaults to the empty
    string and [user] to [None]. *)
Module AuthEventData.
Record t : Type := mk {
  username : string;
  event_type : string;
  ip_address : string;
  user_agent : string;
  success : bool;
  failure_reason : string;
  user : option User.t
}.
End AuthEventData.

(** ** The audit trail as a query returns it

    [AuthLog.Meta.ordering = ['-created_at']]: a query over [auth_logs]
    comes back sorted on [created_at], newest first. *)

Definition newest_first (a b : AuthLog.t) : Prop :=
  AuthLog.created_at b ≤ AuthLog.created_at a.

#[local] Instance newest_first_dec a b : Decision (newest_first a b) :=
  decide (AuthLog.created_at b ≤ AuthLog.created_at a).

Definition AuthLog_objects_all (w : World) : list AuthLog.t :=
  merge_sort newest_first (auth_logs w).

Definition AuthLog_objects_filter_user (user_id : Z) (w : World) : list AuthLog.t :=
  merge_sort newest_first
    (filter (λ row, AuthLog.user row = Some user_id) (auth_logs w)).

(** ** [IsOwnerOrAdmin.has_object_permission] (permissions.py) *)

(** [request.user]: the anonymous user has no [role] attribute. *)
Inductive RequestUser : Type :=
  | AnonymousUser
  | Authenticated (u : User.t).

Definition role_attr (request_user : RequestUser) : option string :=
  match request_user with
  | AnonymousUser => None
  | Authenticated u => Some (User.role u)
  end.

(** The two attributes the permission looks at.  The outer option is
    [hasattr]; the value is a nullable reference to a user. *)
Record Obj : Type := mkObj {
  uploaded_by : option (option User.t);
  user : option (option User.t)
}.

(** [value == request.user]: model instances are equal when their primary
    keys are; [None] and the anonymous user equal no user. *)
Definition eq_request_user (value : option User.t) (request_user : RequestUser) : bool :=
  match value, request_user with
  | Some owner, Authenticated u => User.id owner =? User.id u
  | _, _ => false
  end.

Definition has_object_permission (request_user : RequestUser) (obj : Obj) : bool :=
  if from_option (String.eqb "admin") false (role_attr request_user) then true
  else
    match uploaded_by obj with
    | Some value => eq_request_user value request_user
    | None =>
        match user obj with
        | Some value => eq_request_user value request_user
        | None => false
        end
    end.



(** ** What the view needs from [rest_framework] *)

Definition HTTP_200_OK : Z := 200.
Definition HTTP_400_BAD_REQUEST : Z := 400.
Definition HTTP_401_UNAUTHORIZED : Z := 401.

Record Response : Type := mkResponse {
  data : Dict;
  status_code : Z
}.

(** Python truth value of the values a result dictionary holds. *)
Definition truthy (v : PyVal) : bool :=
  match v with
  | PyNone => false
  | PyBool b => b
  | PyInt z => negb (z =? 0)
  | PyStr s => negb (String.eqb s "")
  | PyDict items => match items with [] => false | _ => true end
  end.

(** [v in [s1, s2, ...]] for the result of [dict.get] and a list of
    strings. *)
Definition py_in (v : option PyVal) (candidates : list string) : bool :=
  match v with
  | Some (PyStr s) => existsb (String.eqb s) candidates
  | _ => false
  end.

Definition HTTP_403_FORBIDDEN : Z := 403.

(** ** The role permissions (permissions.py) *)

(** [request.user.is_authenticated]. *)
Definition is_authenticated (request_user : RequestUser) : bool :=
  match request_user with
  | AnonymousUser => false
  | Authenticated _ => true
  end.

(** [role in [r1, r2, ...]] for the [role] attribute, when there is one. *)
Definition role_in (request_user : RequestUser) (roles : list string) : bool :=
  match role_attr request_user with
  | Some role => existsb (String.eqb role) roles
  | None => false
  end.

Module IsAdminUser.
Definition has_permission (request_user : RequestUser) : bool :=
  is_authenticated request_user && role_in request_user ["admin"].
End IsAdminUser.

Module IsManagerOrAdmin.
Definition has_permission (request_user : RequestUser) : bool :=
  is_authenticated request_user && role_in request_user ["admin"; "manager"].
End IsManagerOrAdmin.

Module IsViewerOrAbove.
Definition has_permission (request_user : RequestUser) : bool :=
  is_authenticated request_user
  && role_in request_user ["admin"; "manager"; "viewer"].
End IsViewerOrAbove.

(** ** [UserViewSet.get_queryset] (views.py)

    The rows the requester may list: all of them for an admin, and
    [User.objects.filter(id=user.id)] for everybody else. *)
Definition get_queryset (user : User.t) (w : World) : gmap string User.t :=
  if User.is_admin user then users w
  else filter (λ entry, User.id entry.2 = User.id user) (users w).

(** ** [LoginSerializer.validate_username] (serializers.py) *)

(** The class [[a-zA-Z0-9_]] of the pattern, on character codes. *)
Definition is_username_char (c : Ascii.ascii) : bool :=
  let n := Ascii.nat_of_ascii c in
  ((97 <=? n) && (n <=? 122) || (65 <=? n) && (n <=? 90)
   || (48 <=? n) && (n <=? 57) || (n =? 95))%nat.

Definition newline : string := String (Ascii.ascii_of_nat 10) "".

(** What is left of [s] after its longest prefix in the class. *)
Fixpoint after_username_chars (s : string) : string :=
  match s with
  | String c rest => if is_username_char c then after_username_chars rest else s
  | EmptyString => s
  end.

(** [re.match(r'^[a-zA-Z0-9_]+$', value)]: one character of the class at
    least, then the end of the string; Python's [$] also matches just before
    a newline that ends the string. *)
Definition re_match_username (value : string) : bool :=
  match value with
  | String c _ =>
      is_username_char c
      && (String.eqb (after_username_chars value) ""
          || String.eqb (after_username_chars value) newline)
  | EmptyString => false
  end.

(** The validated value, or the message of the [ValidationError]. *)
Definition validate_username (value : string) : string + string :=
  if negb (re_match_username value) then
    inr "Username must contain only alphanumeric characters and underscores"
  else inl value.

(** ** [AuthViewSet.get_client_info] (views.py)

    [request.META] maps header names to strings whose characters are code
    points below 256, which is what a character of [string] is. *)

(** [s.split(sep)[0]]: [s] up to its first separator. *)
Fixpoint split_head (sep : Ascii.ascii) (s : string) : string :=
  match s with
  | String c rest => if Ascii.eqb c sep then "" else String c (split_head sep rest)
  | EmptyString => ""
  end.

(** [str.isspace] on one character with code below 256. *)
Definition isspace (c : Ascii.ascii) : bool :=
  let n := Ascii.nat_of_ascii c in
  ((9 <=? n) && (n <=? 13) || (28 <=? n) && (n <=? 32)
   || (n =? 133) || (n =? 160))%nat.

Fixpoint lstrip (s : string) : string :=
  match s with
  | String c rest => if isspace c then lstrip rest else s
  | EmptyString => ""
  end.

Fixpoint rstrip (s : string) : string :=
  match s with
  | String c rest =>
      let kept := rstrip rest in
      if String.eqb kept "" && isspace c then "" else String c kept
  | EmptyString => ""
  end.

(** [s.strip()]. *)
Definition strip (s : string) : string := rstrip (lstrip s).

Definition comma : Ascii.ascii := Ascii.ascii_of_nat 44.

(** The pair (ip_address, user_agent).  An absent and an empty
    [HTTP_X_FORWARDED_FOR] are both false in the test of the code. *)
Definition get_client_info (META : gmap string string) : string * string :=
  let x_forwarded_for := META !! "HTTP_X_FORWARDED_FOR" in
  let ip_address :=
    match x_forwarded_for with
    | Some (String c rest) => strip (split_head comma (String c rest))
    | _ => default "0.0.0.0" (META !! "REMOTE_ADDR")
    end in
  let user_agent := default "" (META !! "HTTP_USER_AGENT") in
  (ip_address, user_agent).

(** [c] occurs in [s]. *)
Fixpoint occurs (c : Ascii.ascii) (s : string) : bool :=
  match s with
  | String c' rest => Ascii.eqb c' c || occurs c rest
  | EmptyString => false
  end.

(** [s] is made of white space only. *)
Fixpoint all_space (s : string) : bool :=
  match s with
  | String c rest => isspace c && all_space rest
  | EmptyString => true
  end.

(** Every character of [s] is in the class of the username pattern. *)
Fixpoint all_username_chars (s : string) : bool :=
  match s with
  | String c rest => is_username_char c && all_username_chars rest
  | EmptyString => true
  end.

(** ** What the login view takes from its serializer *)

(** [serializer.validated_data] of [LoginSerializer]. *)
Module LoginData.
Record t : Type := mk {
  username : string;
  password : string;
  ip_address : string;
  user_agent : string
}.
End LoginData.

(** [timezone.datetime.fromtimestamp(seconds, tz=...)], in microseconds. *)
Definition fromtimestamp (seconds : Z) : Z := seconds * 1000000.

(** ** A concrete environment and sample data

    One clock reading per second, a toy hasher and a toy token library, and
    a user table with five accounts, used to run the model on examples. *)

Module Sample.
Definition wall (n : nat) : Z := 1000000 * Z.of_nat n.

Definition check_password (raw encoded : string) : bool :=
  String.eqb ("hash:" +:+ raw) encoded.

Definition RefreshToken_for_user (now : Z) (u : User.t) : string :=
  "refresh:" +:+ User.username u.

Definition set_claim (key value token : string) : string :=
  token +:+ ";" +:+ key +:+ "=" +:+ value.

Definition access_token (token : string) : string := "access-of-" +:+ token.

Definition str (token : string) : string := token.

Definition RefreshToken_parse (now : Z) (raw : string) : string + string :=
  if String.prefix "refresh:" raw then inl raw
  else inr "Token is invalid or expired".

Definition strftime_HM (t : Z) : string := "00:15".

(** The request body: the [refresh_token] field, if present. *)
Definition TokenRefreshSerializer (body : option string) : string + Dict :=
  match body with
  | Some refresh_token => inl refresh_token
  | None => inr [("refresh_token", PyStr "This field is required.")]
  end.

Definition alice : User.t :=
  User.mk 1 "alice" "hash:Secret123!" "alice@example.com" "viewer"
          "Alice" "QA" "" 0 None None None true.

(** bob is inactive. *)
Definition bob : User.t :=
  User.mk 2 "bob" "hash:Password123!" "bob@example.com" "viewer"
          "Bob" "QA" "" 0 None None None false.

(** carol has three failures on record. *)
Definition carol : User.t :=
  User.mk 3 "carol" "hash:Password123!" "carol@example.com" "manager"
          "Carol" "Ops" "" 3 None None None true.

(** dave is locked until reading 900000000. *)
Definition dave : User.t :=
  User.mk 4 "dave" "hash:Password123!" "dave@example.com" "viewer"
          "Dave" "Ops" "" 5 (Some 900000000) None None true.

Definition root : User.t :=
  User.mk 5 "root" "hash:Admin123!" "root@example.com" "admin"
          "Root" "IT" "" 0 None None None true.

Definition world : World :=
  mkWorld (<[ "alice" := alice ]> (<[ "bob" := bob ]> (<[ "carol" := carol ]>
             (<[ "dave" := dave ]> {[ "root" := root ]}))))
          ∅ [] 0.

(** The same tables, with a string that is no token at all revoked until
    reading 5000000. *)
Definition revoked_world : World :=
  set_blacklisted_tokens
    (λ _, {[ "not-even-a-token" :=
               BlacklistedToken.mk "not-even-a-token" 1 "logout" 5000000 0 ]})
    world.


(** Every sample token expires one hour after the epoch. *)
Definition token_exp (token : string) : Z := 3600.

Definition IntegrityError_str (token : string) : string :=
  "UNIQUE constraint failed: blacklisted_tokens.token".

(** A database that stores any audit row but one without an address. *)
Definition NOT_NULL_str : string :=
  "NOT NULL constraint failed: auth_logs.ip_address".

Definition AuthLog_insert_error (event_data : AuthEventData.t) : option string :=
  None.

Definition LogoutSerializer (body : option string) : string + Dict :=
  TokenRefreshSerializer body.

(** A serializer that wants the four fields as strings and checks the
    username with [validate_username]. *)
Definition LoginSerializer (body : gmap string PyVal) : LoginData.t + Dict :=
  match body !! "username", body !! "password",
        body !! "ip_address", body !! "user_agent" with
  | Some (PyStr username), Some (PyStr password),
    Some (PyStr ip_address), Some (PyStr user_agent) =>
      match validate_username username with
      | inl username => inl (LoginData.mk username password ip_address user_agent)
      | inr message => inr [("username", PyStr message)]
      end
  | _, _, _, _ => inr [("non_field_errors", PyStr "Invalid data.")]
  end.

Definition credentials (username password : string) : gmap string PyVal :=
  <[ "username" := PyStr username ]> {[ "password" := PyStr password ]}.

(** A request that came through a proxy. *)
Definition proxied : gmap string string :=
  <[ "HTTP_X_FORWARDED_FOR" := " 203.0.113.7 , 10.0.0.1" ]>
    (<[ "REMOTE_ADDR" := "10.0.0.1" ]> {[ "HTTP_USER_AGENT" := "Mozilla/5.0" ]}).
End Sample.

Section Auth.

(** *** What the code takes from its environment *)

(** The wall clock: [wall n] is what the [n]-th call of [timezone.now()]
    returns. *)
Variable wall : nat → Z.

(** Django's password hasher, [check_password raw encoded], as a test that
    leaves the row alone. *)
Variable check_password : string → string → bool.

(** The token library ([rest_framework_simplejwt]).  [RefreshToken_for_user]
    and [RefreshToken_parse] read the clock themselves, so they take the
    reading; the constructor [RefreshToken(raw)] either validates [raw]
    (signature, structure, expiry) or raises [TokenError] with a message,
    which is the only exception the library is taken to raise. *)
Variable Token : Type.
Variable RefreshToken_for_user : Z → User.t → Token.
Variable set_claim : string → string → Token → Token.
Variable access_token : Token → Token.
Variable str : Token → string.
Variable RefreshToken_parse : Z → string → Token + string.

(** [datetime.strftime("%H:%M")]. *)
Variable strftime_HM : Z → string.

(** *** The clock and the ORM primitives *)

Definition timezone_now : M Z :=
  λ w, (wall (ticks w), set_ticks S w).

(** [User.objects.get(username=...)]; [None] is [User.DoesNotExist]. *)
Definition User_objects_get (username : string) : M (option User.t) :=
  λ w, (users w !! username, w).

(** [self.save(update_fields=[...])]: an UPDATE of the listed columns, and
    of no other, in the row of [self], which is the row filed under the
    username of [self]; the other rows are left alone. *)
Definition save (self : User.t) (update_fields : list User.field) : M unit :=
  λ w, (tt, set_users
              (alter (λ row, foldr (User.write_field self) row update_fields)
                     (User.username self)) w).

(** *** [User] methods (models.py) *)

Definition is_account_locked (self : User.t) : M (bool * User.t) :=
  match User.account_locked_until self with
  | None => ret (false, self)
  | Some locked_until =>
      now <- timezone_now ;;
      if now >=? locked_until then
        let self := User.set_account_locked_until None self in
        let self := User.set_failed_login_attempts 0 self in
        save self [User.f_account_locked_until; User.f_failed_login_attempts] ;;
        ret (false, self)
      else ret (true, self)
  end.

Definition reset_failed_attempts (self : User.t) : M User.t :=
  let self := User.set_failed_login_attempts 0 self in
  let self := User.set_account_locked_until None self in
  save self [User.f_failed_login_attempts; User.f_account_locked_until] ;;
  ret self.

Definition increment_failed_attempts (self : User.t) : M User.t :=
  let self :=
    User.set_failed_login_attempts (User.failed_login_attempts self + 1) self in
  self <-
    (if User.failed_login_attempts self >=? 5 then
       now <- timezone_now ;;
       ret (User.set_account_locked_until (Some (now + timedelta_minutes 15)) self)
     else ret self) ;;
  save self [User.f_failed_login_attempts; User.f_account_locked_until] ;;
  ret self.

(** *** [BlacklistedToken.is_blacklisted] (models.py) *)

(** [cls.objects.get(token=...)]; [None] is [cls.DoesNotExist]. *)
Definition BlacklistedToken_objects_get (token : string)
    : M (option BlacklistedToken.t) :=
  λ w, (blacklisted_tokens w !! token, w).

(** [blacklisted.delete()] for the row found under [token]. *)
Definition BlacklistedToken_delete (token : string) : M unit :=
  λ w, (tt, set_blacklisted_tokens (delete token) w).

Definition is_blacklisted (token : string) : M bool :=
  found <- BlacklistedToken_objects_get token ;;
  match found with
  | Some blacklisted =>
      now <- timezone_now ;;
      if now <? BlacklistedToken.expires_at blacklisted then ret true
      else
        BlacklistedToken_delete token ;;
        ret false
  | None => ret false
  end.

(** *** [LoginUseCase] (auth_service.py) *)

(** [AuthLog.objects.create(...)] for a row the audit table takes;
    [created_at] is filled in from the clock ([auto_now_add]).  The same
    save reads the clock once more for [updated_at], a column that is not
    modelled, and neither is that reading.  [login] is given the address
    its serializer has validated as an IP address, which every database
    stores; the address [logout] is given comes from the request headers
    as it is, and its insert is [AuthLog_objects_create] below. *)
Definition _log_auth_event (event_data : AuthEventData.t) : M unit :=
  now <- timezone_now ;;
  λ w, (tt, set_auth_logs
              (λ rows, app rows
                 [AuthLog.mk
                    (User.id <$> AuthEventData.user event_data)
                    (AuthEventData.username event_data)
                    (AuthEventData.event_type event_data)
                    (AuthEventData.ip_address event_data)
                    (AuthEventData.user_agent event_data)
                    (AuthEventData.success event_data)
                    (AuthEventData.failure_reason event_data)
                    None
                    now]) w).

Definition login (username password ip_address user_agent : string) : M Dict :=
  found <- User_objects_get username ;;
  match found with
  | None =>
      _log_auth_event
        (AuthEventData.mk username "login_failed" ip_address user_agent
           false "Invalid username" None) ;;
      ret (_error_response AuthErrorCodes.INVALID_CREDENTIALS
             "Invalid credentials")
  | Some user =>
      checked <- is_account_locked user ;;
      let (locked, user) := checked in
      if locked then
        _log_auth_event
          (AuthEventData.mk username "login_failed" ip_address user_agent
             false "Account locked" (Some user)) ;;
        (* a user reported locked carries a lock time, so [strftime] is
           always called on a timestamp here *)
        ret (_error_response AuthErrorCodes.ACCOUNT_LOCKED
               ("Account is locked. Try again after " +:+
                from_option strftime_HM "" (User.account_locked_until user)))
      else if negb (User.is_active user) then
        _log_auth_event
          (AuthEventData.mk username "login_failed" ip_address user_agent
             false "Account inactive" (Some user)) ;;
        ret (_error_response AuthErrorCodes.INACTIVE_ACCOUNT
               "Account is inactive. Please contact administrator.")
      else if negb (check_password password (User.password user)) then
        user <- increment_failed_attempts user ;;
        _log_auth_event
          (AuthEventData.mk username "login_failed" ip_address user_agent
             false "Invalid password" (Some user)) ;;
        rechecked <- is_account_locked user ;;
        if fst rechecked then
          ret (_error_response AuthErrorCodes.ACCOUNT_LOCKED
                 "Too many failed attempts. Account locked for 15 minutes.")
        else
          ret (_error_response AuthErrorCodes.INVALID_CREDENTIALS
                 "Invalid credentials")
      else
        user <- reset_failed_attempts user ;;
        now <- timezone_now ;;
        let user := User.set_last_login (Some now) user in
        let user := User.set_last_login_ip (Some ip_address) user in
        save user [User.f_last_login; User.f_last_login_ip] ;;
        minted <- timezone_now ;;
        let refresh := RefreshToken_for_user minted user in
        let refresh := set_claim "role" (User.role user) refresh in
        let refresh := set_claim "username" (User.username user) refresh in
        _log_auth_event
          (AuthEventData.mk username "login_success" ip_address user_agent
             true "" (Some user)) ;;
        ret (_success_response
               [("access_token", PyStr (str (access_token refresh)));
                ("refresh_token", PyStr (str refresh));
                ("user", PyDict (_serialize_user user))])
  end.

Definition refresh_access_token (refresh_token : string) : M Dict :=
  revoked <- is_blacklisted refresh_token ;;
  if revoked then
    ret (_error_response AuthErrorCodes.TOKEN_REVOKED "Token has been revoked")
  else
    now <- timezone_now ;;
    match RefreshToken_parse now refresh_token with
    | inl token_obj =>
        let new_access_token := str (access_token token_obj) in
        ret (_success_response [("access_token", PyStr new_access_token)])
    | inr e =>
        ret (_error_response AuthErrorCodes.TOKEN_REFRESH_FAILED
               ("Invalid token: " +:+ e))
    end.

(** *** [AuthViewSet.refresh] (views.py) *)

(** The request body and [TokenRefreshSerializer] (a
    [rest_framework] serializer): either the validated [refresh_token] or
    the field-keyed error map. *)
Variable RequestData : Type.
Variable TokenRefreshSerializer : RequestData → string + Dict.

Definition refresh (request_data : RequestData) : M Response :=
  match TokenRefreshSerializer request_data with
  | inr errors => ret (mkResponse errors HTTP_400_BAD_REQUEST)
  | inl refresh_token =>
      result <- refresh_access_token refresh_token ;;
      if negb (from_option truthy false (dict_get "success" result)) then
        let error_code := dict_get "error_code" result in
        if py_in error_code ["AUTH-005"; "AUTH-006"] then
          ret (mkResponse result HTTP_401_UNAUTHORIZED)
        else ret (mkResponse result HTTP_400_BAD_REQUEST)
      else ret (mkResponse result HTTP_200_OK)
  end.

(** *** [LoginUseCase.logout] (auth_service.py) *)

(** [token_obj['exp']]: the expiry claim of a parsed token, in seconds. *)
Variable token_exp : Token → Z.

(** The text of the [IntegrityError] the database raises for a token that
    is in the table already ([token] is a unique column). *)
Variable IntegrityError_str : string → string.

(** [BlacklistedToken.objects.create(...)]: [created_at] is read from the
    clock, then the row is inserted unless the unique column refuses it. *)
Definition BlacklistedToken_objects_create
    (token : string) (user : User.t) (reason : string) (expires_at : Z)
    : M (unit + string) :=
  now <- timezone_now ;;
  found <- BlacklistedToken_objects_get token ;;
  match found with
  | Some _ => ret (inr (IntegrityError_str token))
  | None =>
      λ w, (inl tt,
            set_blacklisted_tokens
              (insert token
                 (BlacklistedToken.mk token (User.id user) reason expires_at now))
              w)
  end.

(** [AuthLog.ip_address] is a [GenericIPAddressField] without
    [null=True].  Django hands the empty string to the database as NULL
    ([adapt_ipaddressfield_value]), which the NOT NULL column refuses with
    an [IntegrityError]; [NOT_NULL_str] is the text of that error.  What
    else a database refuses is its own business (PostgreSQL's [inet] column
    refuses what is no address, and its [varchar(500)] a longer user agent;
    SQLite stores any string): [AuthLog_insert_error] gives the text of
    such an error, if there is one. *)
Variable NOT_NULL_str : string.
Variable AuthLog_insert_error : AuthEventData.t → option string.

Definition audit_insert_error (event_data : AuthEventData.t) : option string :=
  match AuthLog_insert_error event_data with
  | Some e => Some e
  | None =>
      if String.eqb (AuthEventData.ip_address event_data) "" then
        Some NOT_NULL_str
      else None
  end.

(** [AuthLog.objects.create(...)] with the database's verdict on the row:
    the clock is read for [created_at] before the insert is tried, and a
    refused insert leaves the table as it was. *)
Definition AuthLog_objects_create (event_data : AuthEventData.t)
    : M (unit + string) :=
  match audit_insert_error event_data with
  | Some e =>
      now <- timezone_now ;;
      ret (inr e)
  | None =>
      _log_auth_event event_data ;;
      ret (inl tt)
  end.

(** The callers always pass [ip_address] and [user_agent] or rely on the
    defaults ['0.0.0.0'] and ['']; here both are arguments.  Each insert
    is committed on its own (Django's autocommit), so the revocation
    record stays when the audit insert after it fails. *)
Definition logout (user : User.t) (refresh_token ip_address user_agent : string)
    : M Dict :=
  now <- timezone_now ;;
  match RefreshToken_parse now refresh_token with
  | inl token_obj =>
      let expires_at := fromtimestamp (token_exp token_obj) in
      created <- BlacklistedToken_objects_create
                   refresh_token user "logout" expires_at ;;
      match created with
      | inl _ =>
          logged <- AuthLog_objects_create
                      (AuthEventData.mk (User.username user) "logout" ip_address
                         user_agent true "" (Some user)) ;;
          match logged with
          | inl _ =>
              ret (_success_response
                     [("message", PyStr "Logged out successfully")])
          | inr e =>
              ret (_error_response AuthErrorCodes.LOGOUT_FAILED
                     ("Logout failed: " +:+ e))
          end
      | inr e =>
          ret (_error_response AuthErrorCodes.LOGOUT_FAILED
                 ("Logout failed: " +:+ e))
      end
  | inr e =>
      ret (_error_response AuthErrorCodes.LOGOUT_FAILED
             ("Invalid token: " +:+ e))
  end.

(** *** [AuthViewSet.login] and [AuthViewSet.logout] (views.py) *)

(** [LoginSerializer] and [LogoutSerializer] ([rest_framework]
    serializers): the validated data or the field-keyed error map. *)
Variable LoginSerializer : gmap string PyVal → LoginData.t + Dict.
Variable LogoutSerializer : RequestData → string + Dict.

Definition AuthViewSet_login
    (META : gmap string string) (request_data : gmap string PyVal)
    : M Response :=
  let (ip_address, user_agent) := get_client_info META in
  let data := request_data in
  let data :=
    match data !! "ip_address" with
    | None => <[ "ip_address" := PyStr ip_address ]> data
    | Some _ => data
    end in
  let data :=
    match data !! "user_agent" with
    | None => <[ "user_agent" := PyStr user_agent ]> data
    | Some _ => data
    end in
  match LoginSerializer data with
  | inr errors => ret (mkResponse errors HTTP_400_BAD_REQUEST)
  | inl validated_data =>
      result <- login (LoginData.username validated_data)
                      (LoginData.password validated_data)
                      (LoginData.ip_address validated_data)
                      (LoginData.user_agent validated_data) ;;
      if negb (from_option truthy false (dict_get "success" result)) then
        let error_code := dict_get "error_code" result in
        if py_in error_code ["AUTH-001"] then
          ret (mkResponse result HTTP_401_UNAUTHORIZED)
        else if py_in error_code ["AUTH-002"] then
          ret (mkResponse result HTTP_403_FORBIDDEN)
        else if py_in error_code ["AUTH-003"] then
          ret (mkResponse result HTTP_403_FORBIDDEN)
        else ret (mkResponse result HTTP_400_BAD_REQUEST)
      else ret (mkResponse result HTTP_200_OK)
  end.

(** The view runs for an authenticated requester only, so [request.user]
    is a user. *)
Definition AuthViewSet_logout
    (META : gmap string string) (request_data : RequestData) (user : User.t)
    : M Response :=
  let (ip_address, user_agent) := get_client_info META in
  match LogoutSerializer request_data with
  | inr errors => ret (mkResponse errors HTTP_400_BAD_REQUEST)
  | inl refresh_token =>
      result <- logout user refresh_token ip_address user_agent ;;
      if negb (from_option truthy false (dict_get "success" result)) then
        ret (mkResponse result HTTP_400_BAD_REQUEST)
      else ret (mkResponse result HTTP_200_OK)
  end.

(** *** Vocabulary of the statements *)

(** [n] calls of [login] in a row with the same arguments; the answers in
    the order of the calls. *)
Fixpoint login_attempts (n : nat)
    (username password ip_address user_agent : string) : M (list Dict) :=
  match n with
  | O => ret []
  | S k =>
      result <- login username password ip_address user_agent ;;
      results <- login_attempts k username password ip_address user_agent ;;
      ret (result :: results)
  end.

(** The lock columns as [login] keeps them: a counter from 0 to 4 with no
    lock time, or the counter at 5 with one. *)
Definition lockout_state (u : User.t) : Prop :=
  (User.account_locked_until u = None
   ∧ 0 ≤ User.failed_login_attempts u < 5)
  ∨ (is_Some (User.account_locked_until u)
     ∧ User.failed_login_attempts u = 5).

Definition store_lockout_state (w : World) : Prop :=
  ∀ key row, users w !! key = Some row → lockout_state row.

(** The wall clock never runs backwards. *)
Definition monotone_clock : Prop :=
  ∀ n m : nat, (n ≤ m)%nat → wall n ≤ wall m.

(** The audit log is in time order: no row was created before a row that
    precedes it in the table, and none later than the clock reads now. *)
Definition oldest_first (a b : AuthLog.t) : Prop :=
  AuthLog.created_at a ≤ AuthLog.created_at b.

Definition audit_log_in_order (w : World) : Prop :=
  StronglySorted oldest_first (auth_logs w)
  ∧ ∀ row, row ∈ auth_logs w → AuthLog.created_at row ≤ wall (ticks w).

(** [w'] differs from [w] in the user table at most in the row filed under
    [name], and not at all in the revocation table. *)
Definition touches_only (name : string) (w w' : World) : Prop :=
  (∀ other, other ≠ name → users w' !! other = users w !! other)
  ∧ blacklisted_tokens w' = blacklisted_tokens w.

(** The request body as the login view hands it to its serializer. *)
Definition with_client_info
    (META : gmap string string) (request_data : gmap string PyVal)
    : gmap string PyVal :=
  let data :=
    match request_data !! "ip_address" with
    | None => <[ "ip_address" := PyStr (get_client_info META).1 ]> request_data
    | Some _ => request_data
    end in
  match data !! "user_agent" with
  | None => <[ "user_agent" := PyStr (get_client_info META).2 ]> data
  | Some _ => data
  end.

(** The row [logout] writes for a token parsed as [token_obj], at clock
    reading [now]. *)
Definition revocation_row (user : User.t) (refresh_token : string)
    (token_obj : Token) (now : Z) : BlacklistedToken.t :=
  BlacklistedToken.mk refresh_token (User.id user) "logout"
    (fromtimestamp (token_exp token_obj)) now.


(** [n] consecutive calls of [increment_failed_attempts] on one object. *)
Fixpoint record_failures (n : nat) (self : User.t) : M User.t :=
  match n with
  | O => ret self
  | S k => self <- increment_failed_attempts self ;; record_failures k self
  end.

(** One failed attempt the way a request makes it: the row is loaded by
    its username and the failure is recorded on the loaded object, which is
    then dropped.  [failed_attempts n] is [n] of them in a row. *)
Definition failed_attempt (username : string) : M unit :=
  found <- User_objects_get username ;;
  match found with
  | Some user => increment_failed_attempts user ;; ret tt
  | None => ret tt
  end.

Fixpoint failed_attempts (n : nat) (username : string) : M unit :=
  match n with
  | O => ret tt
  | S k => failed_attempt username ;; failed_attempts k username
  end.

(** The lock check of a request: the row is loaded and asked. *)
Definition lock_check (username : string) : M (option bool) :=
  found <- User_objects_get username ;;
  match found with
  | Some user => checked <- is_account_locked user ;; ret (Some checked.1)
  | None => ret None
  end.

(** What the lapse branch of [is_account_locked] leaves in the object. *)
Definition lapse_cleared (self : User.t) : User.t :=
  User.set_failed_login_attempts 0 (User.set_account_locked_until None self).

(** What [increment_failed_attempts] leaves in the object: the bumped
    counter, and the lock when the clock was read at [now]. *)
Definition failure_counted (self : User.t) : User.t :=
  User.set_failed_login_attempts (User.failed_login_attempts self + 1) self.

Definition locked_from (now : Z) (self : User.t) : User.t :=
  User.set_account_locked_until (Some (now + timedelta_minutes 15)) self.

(** The audit event of [logout]. *)
Definition logout_event (user : User.t) (ip_address user_agent : string)
    : AuthEventData.t :=
  AuthEventData.mk (User.username user) "logout" ip_address user_agent true ""
    (Some user).

(** The audit events of [login]. *)
Definition login_failed_event
    (username ip_address user_agent reason : string) (user : option User.t)
    : AuthEventData.t :=
  AuthEventData.mk username "login_failed" ip_address user_agent false reason user.

Definition login_success_event
    (username ip_address user_agent : string) (user : User.t)
    : AuthEventData.t :=
  AuthEventData.mk username "login_success" ip_address user_agent true "" (Some user).

(** The row [AuthLog.objects.create] writes for an event at clock reading
    [now]. *)
Definition audit_row (event_data : AuthEventData.t) (now : Z) : AuthLog.t :=
  AuthLog.mk
    (User.id <$> AuthEventData.user event_data)
    (AuthEventData.username event_data)
    (AuthEventData.event_type event_data)
    (AuthEventData.ip_address event_data)
    (AuthEventData.user_agent event_data)
    (AuthEventData.success event_data)
    (AuthEventData.failure_reason event_data)
    None
    now.

(** The object after the success branch of [login] has stamped it. *)
Definition login_stamped (now : Z) (ip_address : string) (user : User.t) : User.t :=
  User.set_last_login_ip (Some ip_address) (User.set_last_login (Some now) user).

(** The object after [reset_failed_attempts]. *)
Definition attempts_reset (self : User.t) : User.t :=
  User.set_account_locked_until None (User.set_failed_login_attempts 0 self).

(** The two states of the lockout machine at clock reading [now]: locked
    while [account_locked_until] lies in the future. *)
Definition Locked (now : Z) (u : User.t) : Prop :=
  ∃ locked_until, User.account_locked_until u = Some locked_until ∧ now < locked_until.

(** The invariant of the security columns: the counter is not negative, and
    a lock time is present only while the counter is at least 5. *)
Definition security_invariant (u : User.t) : Prop :=
  0 ≤ User.failed_login_attempts u
  ∧ (is_Some (User.account_locked_until u) → 5 ≤ User.failed_login_attempts u).

Definition store_invariant (w : World) : Prop :=
  ∀ key row, users w !! key = Some row → security_invariant row.

(** The columns no method of this subsystem writes. *)
Definition same_profile (a b : User.t) : Prop :=
  User.id a = User.id b ∧ User.username a = User.username b
  ∧ User.password a = User.password b ∧ User.email a = User.email b
  ∧ User.role a = User.role b ∧ User.full_name a = User.full_name b
  ∧ User.department a = User.department b ∧ User.phone a = User.phone b
  ∧ User.is_active a = User.is_active b.

(** The in-memory object and its database row agree. *)
Definition in_sync (self : User.t) (w : World) : Prop :=
  users w !! User.username self = Some self.

(** ** Running the [User] methods *)

Lemma save_lookup self update_fields w row :
  users w !! User.username self = Some row →
  users (save self update_fields w).2 !! User.username self
    = Some (foldr (User.write_field self) row update_fields).
Proof.
  intros Hrow. unfold save, set_users; simpl.
  rewrite lookup_alter, decide_True by done. by rewrite Hrow.
Qed.

Lemma save_lookup_ne self update_fields w key :
  key ≠ User.username self →
  users (save self update_fields w).2 !! key = users w !! key.
Proof.
  intros Hne. unfold save, set_users; simpl.
  by rewrite lookup_alter, decide_False.
Qed.

Lemma is_account_locked_unset self w :
  User.account_locked_until self = None →
  is_account_locked self w = ((false, self), w).
Proof. intros H. unfold is_account_locked. by rewrite H. Qed.

Lemma is_account_locked_before self w locked_until :
  User.account_locked_until self = Some locked_until →
  wall (ticks w) < locked_until →
  is_account_locked self w = ((true, self), set_ticks S w).
Proof.
  intros H Hlt. unfold is_account_locked, bind, timezone_now, ret. rewrite H.
  destruct (Z.geb_spec (wall (ticks w)) locked_until); [lia | done].
Qed.

Lemma is_account_locked_lapsed self w locked_until :
  User.account_locked_until self = Some locked_until →
  locked_until ≤ wall (ticks w) →
  is_account_locked self w
    = ((false, lapse_cleared self),
       (save (lapse_cleared self)
             [User.f_account_locked_until; User.f_failed_login_attempts]
             (set_ticks S w)).2).
Proof.
  intros H Hle. unfold is_account_locked, bind, timezone_now, ret. rewrite H.
  destruct (Z.geb_spec (wall (ticks w)) locked_until); [done | lia].
Qed.

Lemma increment_below_threshold self w :
  User.failed_login_attempts self + 1 < 5 →
  increment_failed_attempts self w
    = (failure_counted self,
       (save (failure_counted self)
             [User.f_failed_login_attempts; User.f_account_locked_until] w).2).
Proof.
  intros Hlt. unfold increment_failed_attempts, bind, ret; simpl.
  destruct (Z.geb_spec (User.failed_login_attempts self + 1) 5); [lia | done].
Qed.

Lemma increment_at_threshold self w :
  5 ≤ User.failed_login_attempts self + 1 →
  increment_failed_attempts self w
    = (locked_from (wall (ticks w)) (failure_counted self),
       (save (locked_from (wall (ticks w)) (failure_counted self))
             [User.f_failed_login_attempts; User.f_account_locked_until]
             (set_ticks S w)).2).
Proof.
  intros Hle. unfold increment_failed_attempts, bind, ret; simpl.
  destruct (Z.geb_spec (User.failed_login_attempts self + 1) 5); [done | lia].
Qed.

(** Saving the two lock columns of an object that differs from its row in
    those columns only brings the row up to date. *)
Lemma in_sync_save_lock_columns self0 self w update_fields :
  in_sync self0 w →
  User.username self = User.username self0 →
  foldr (User.write_field self) self0 update_fields = self →
  in_sync self (save self update_fields w).2.
Proof.
  unfold in_sync. intros Hsync Hname Hfields.
  rewrite <- Hname in Hsync.
  by rewrite (save_lookup self update_fields w self0), Hfields.
Qed.

Lemma in_sync_ticks self w f : in_sync self w → in_sync self (set_ticks f w).
Proof. done. Qed.

Lemma increment_in_sync self w :
  in_sync self w →
  in_sync (increment_failed_attempts self w).1 (increment_failed_attempts self w).2.
Proof.
  intros Hsync.
  destruct (Z_lt_le_dec (User.failed_login_attempts self + 1) 5) as [Hlt | Hle].
  - rewrite increment_below_threshold by done. cbn [fst snd].
    apply in_sync_save_lock_columns with (self0 := self); [done | done |].
    by destruct self.
  - rewrite increment_at_threshold by done. cbn [fst snd].
    apply in_sync_save_lock_columns with (self0 := self);
      [by apply in_sync_ticks | done |].
    by destruct self.
Qed.

Lemma record_failures_S n self w :
  record_failures (S n) self w
    = record_failures n (increment_failed_attempts self w).1
                        (increment_failed_attempts self w).2.
Proof.
  cbn [record_failures]. unfold bind.
  by destruct (increment_failed_attempts self w).
Qed.

Lemma record_failures_in_sync n : ∀ self w,
  in_sync self w → in_sync (record_failures n self w).1 (record_failures n self w).2.
Proof.
  induction n as [| n IH]; intros self w Hsync; [done |].
  rewrite record_failures_S. by apply IH, increment_in_sync.
Qed.

(** Below the threshold a failure only bumps the counter: the lock column
    and the clock are left alone. *)
Lemma record_failures_below n : ∀ self w,
  User.failed_login_attempts self + Z.of_nat n < 5 →
  (record_failures n self w).1 = Nat.iter n failure_counted self
  ∧ ticks (record_failures n self w).2 = ticks w.
Proof.
  induction n as [| n IH]; intros self w Hlt; [done |].
  rewrite record_failures_S, increment_below_threshold by lia. cbn [fst snd].
  destruct (IH (failure_counted self)
               (save (failure_counted self)
                  [User.f_failed_login_attempts; User.f_account_locked_until] w).2)
    as [-> ->]; [simpl; lia |].
  split; [| done]. by rewrite Nat.iter_succ_r.
Qed.

Lemma iter_failure_counted n self :
  User.failed_login_attempts (Nat.iter n failure_counted self)
    = User.failed_login_attempts self + Z.of_nat n
  ∧ User.account_locked_until (Nat.iter n failure_counted self)
    = User.account_locked_until self.
Proof.
  induction n as [| n [IHa IHl]]; [split; [simpl; lia | done] |].
  rewrite Nat.iter_succ. unfold failure_counted at 1 3. simpl. split; [lia | done].
Qed.

Lemma record_failures_app n m self w :
  record_failures (n + m) self w
    = record_failures m (record_failures n self w).1 (record_failures n self w).2.
Proof.
  revert self w. induction n as [| n IH]; intros self w; [done |].
  cbn [Nat.add]. by rewrite !record_failures_S, IH.
Qed.

Lemma increment_username self w :
  User.username (increment_failed_attempts self w).1 = User.username self.
Proof.
  destruct (Z_lt_le_dec (User.failed_login_attempts self + 1) 5).
  - by rewrite increment_below_threshold.
  - by rewrite increment_at_threshold.
Qed.

Lemma record_failures_username n : ∀ self w,
  User.username (record_failures n self w).1 = User.username self.
Proof.
  induction n as [| n IH]; intros self w; [done |].
  by rewrite record_failures_S, IH, increment_username.
Qed.

Lemma failed_attempt_run username user w :
  users w !! username = Some user →
  failed_attempt username w = (tt, (increment_failed_attempts user w).2).
Proof.
  intros Hrow. unfold failed_attempt, bind, User_objects_get, ret.
  rewrite Hrow. by destruct (increment_failed_attempts user w).
Qed.

(** Loading the row before every failure comes to the same as recording
    the failures on one object that was loaded once. *)
Lemma failed_attempts_run n : ∀ user w,
  in_sync user w →
  failed_attempts n (User.username user) w = (tt, (record_failures n user w).2).
Proof.
  induction n as [| n IH]; intros user w Hsync; [done |].
  cbn [failed_attempts]. unfold bind at 1.
  rewrite (failed_attempt_run _ user) by done.
  rewrite record_failures_S, <- IH by by apply increment_in_sync.
  by rewrite increment_username.
Qed.

Lemma iter_failure_counted_eq n self :
  Nat.iter n failure_counted self
    = User.set_failed_login_attempts
        (User.failed_login_attempts self + Z.of_nat n) self.
Proof.
  induction n as [| n IH].
  - change (Z.of_nat 0) with 0. rewrite Z.add_0_r. by destruct self.
  - rewrite Nat.iter_succ, IH, Nat2Z.inj_succ.
    destruct self; unfold failure_counted, User.set_failed_login_attempts;
      cbn [User.failed_login_attempts User.id User.username User.password
           User.email User.role User.full_name User.department User.phone
           User.account_locked_until User.last_login User.last_login_ip
           User.is_active].
    f_equal. lia.
Qed.

Lemma lock_check_run username user w :
  users w !! username = Some user →
  lock_check username w
    = (Some (is_account_locked user w).1.1, (is_account_locked user w).2).
Proof.
  intros Hrow. unfold lock_check, bind, User_objects_get, ret.
  rewrite Hrow. by destruct (is_account_locked user w).
Qed.

(** C1: five consecutive failed attempts on an account whose counter is
    cleared, each of them loading the row and recording the failure on it.
    Every failure is saved: after the k-th of the first four the row holds
    the count k, with the lock column as it was and the clock not read, so
    the fifth failure happens at the reading [wall (ticks w)] and leaves the
    row with the count 5 and the lock time fifteen minutes after it.
    From then on, for as long as the row is that, a lock check on the loaded
    row reports true, and leaves the tables as they are, at every reading
    strictly before fifteen minutes after the fifth failure; at a reading at
    or after that instant it reports false, and that very check sets
    failed_login_attempts to 0 and clears account_locked_until in the
    row. *)
Theorem C1_five_failures_lock_for_15_minutes
    (username : string) (user : User.t) (w : World) :
  users w !! username = Some user →
  User.username user = username →
  User.failed_login_attempts user = 0 →
  let after k := (failed_attempts k username w).2 in
  let unlock_at := wall (ticks w) + timedelta_minutes 15 in
  let locked_row :=
    User.set_account_locked_until (Some unlock_at)
      (User.set_failed_login_attempts 5 user) in
  (∀ k, (k < 5)%nat →
     users (after k) !! username
       = Some (User.set_failed_login_attempts (Z.of_nat k) user)
     ∧ ticks (after k) = ticks w)
  ∧ users (after 5%nat) !! username = Some locked_row
  ∧ ∀ w', users w' !! username = Some locked_row →
      (wall (ticks w') < unlock_at →
         lock_check username w' = (Some true, set_ticks S w'))
      ∧ (unlock_at ≤ wall (ticks w') →
         (lock_check username w').1 = Some false
         ∧ users (lock_check username w').2 !! username
             = Some (User.set_account_locked_until None user)).
Proof.
  intros Hrow Hname Hzero after unlock_at locked_row.
  assert (Hsync : in_sync user w) by (unfold in_sync; by rewrite Hname).
  assert (Hafter : ∀ k, after k = (record_failures k user w).2).
  { intros k. subst after. cbn beta. rewrite <- Hname.
    by rewrite failed_attempts_run. }
  assert (Hrows : ∀ k, users (after k) !! username
                       = Some (record_failures k user w).1).
  { intros k. rewrite Hafter.
    pose proof (record_failures_in_sync k user w Hsync) as Hk.
    unfold in_sync in Hk. by rewrite record_failures_username, Hname in Hk. }
  assert (Hu5 : (record_failures 5 user w).1 = locked_row).
  { change 5%nat with (4 + 1)%nat. rewrite record_failures_app.
    destruct (record_failures_below 4 user w) as [-> Hticks]; [lia |].
    rewrite record_failures_S, increment_at_threshold, Hticks;
      [| destruct (iter_failure_counted 4 user) as [-> _]; lia].
    cbn [fst record_failures ret]. rewrite iter_failure_counted_eq, Hzero.
    subst locked_row unlock_at. by destruct user. }
  split; [| split].
  - intros k Hk. rewrite Hrows, Hafter.
    destruct (record_failures_below k user w) as [-> ->]; [lia |].
    by rewrite iter_failure_counted_eq, Hzero.
  - by rewrite Hrows, Hu5.
  - intros w' Hrow'. rewrite (lock_check_run username locked_row w' Hrow').
    split; intros Htime.
    + by rewrite (is_account_locked_before locked_row w' unlock_at).
    + rewrite (is_account_locked_lapsed locked_row w' unlock_at) by done.
      cbn [fst snd]. split; [done |].
      pose proof (save_lookup (lapse_cleared locked_row)
                    [User.f_account_locked_until; User.f_failed_login_attempts]
                    (set_ticks S w') locked_row) as Hsave.
      assert (Hname' : User.username (lapse_cleared locked_row) = username)
        by done.
      rewrite Hname' in Hsave. rewrite Hsave by done.
      subst locked_row. destruct user. cbn in Hzero. by subst.
Qed.

(** ** The revocation store *)

Lemma is_blacklisted_live token w r :
  blacklisted_tokens w !! token = Some r →
  wall (ticks w) < BlacklistedToken.expires_at r →
  is_blacklisted token w = (true, set_ticks S w).
Proof.
  unfold is_blacklisted, bind, BlacklistedToken_objects_get, timezone_now, ret.
  intros -> Hlt.
  destruct (Z.ltb_spec (wall (ticks w)) (BlacklistedToken.expires_at r));
    [done | lia].
Qed.

Lemma is_blacklisted_expired token w r :
  blacklisted_tokens w !! token = Some r →
  BlacklistedToken.expires_at r ≤ wall (ticks w) →
  is_blacklisted token w
    = (false, set_blacklisted_tokens (delete token) (set_ticks S w)).
Proof.
  unfold is_blacklisted, bind, BlacklistedToken_objects_get, timezone_now, ret.
  intros -> Hle.
  destruct (Z.ltb_spec (wall (ticks w)) (BlacklistedToken.expires_at r));
    [lia | done].
Qed.

Lemma is_blacklisted_absent token w :
  blacklisted_tokens w !! token = None →
  is_blacklisted token w = (false, w).
Proof.
  unfold is_blacklisted, bind, BlacklistedToken_objects_get. by intros ->.
Qed.

(** The lookup touches nothing but the revocation table and the clock. *)
Lemma is_blacklisted_frame token w :
  users (is_blacklisted token w).2 = users w
  ∧ auth_logs (is_blacklisted token w).2 = auth_logs w.
Proof.
  destruct (blacklisted_tokens w !! token) as [r |] eqn:Hr.
  - destruct (Z_lt_le_dec (wall (ticks w)) (BlacklistedToken.expires_at r)).
    + by rewrite (is_blacklisted_live token w r).
    + by rewrite (is_blacklisted_expired token w r).
  - by rewrite is_blacklisted_absent.
Qed.

(** C8: the three behaviours of is_blacklisted.  A record that has not
    expired gives true and an absent record gives false, both with the
    table left as it is; an expired record is deleted and gives false.
    The cases are exhaustive, so there is no other behaviour. *)
Theorem C8_is_blacklisted_cases (token : string) (w : World) :
  (∀ r, blacklisted_tokens w !! token = Some r →
        wall (ticks w) < BlacklistedToken.expires_at r →
        (is_blacklisted token w).1 = true
        ∧ blacklisted_tokens (is_blacklisted token w).2 = blacklisted_tokens w)
  ∧ (∀ r, blacklisted_tokens w !! token = Some r →
          BlacklistedToken.expires_at r ≤ wall (ticks w) →
          (is_blacklisted token w).1 = false
          ∧ blacklisted_tokens (is_blacklisted token w).2
              = delete token (blacklisted_tokens w))
  ∧ (blacklisted_tokens w !! token = None →
     (is_blacklisted token w).1 = false
     ∧ blacklisted_tokens (is_blacklisted token w).2 = blacklisted_tokens w).
Proof.
  split; [| split].
  - intros r Hr Hlt. by rewrite (is_blacklisted_live token w r).
  - intros r Hr Hle. by rewrite (is_blacklisted_expired token w r).
  - intros Hr. by rewrite is_blacklisted_absent.
Qed.

(** ** Token refresh *)

(** C3: a refresh token whose revocation record has not lapsed is answered
    with TOKEN_REVOKED, whatever the token library would say about it: the
    result does not mention the parser, and the clock has been read once
    only, by the revocation lookup. *)
Theorem C3_revoked_token_rejected_before_parsing
    (refresh_token : string) (w : World) (r : BlacklistedToken.t) :
  blacklisted_tokens w !! refresh_token = Some r →
  wall (ticks w) < BlacklistedToken.expires_at r →
  refresh_access_token refresh_token w
    = (_error_response AuthErrorCodes.TOKEN_REVOKED "Token has been revoked",
       set_ticks S w).
Proof.
  intros Hr Hlt. unfold refresh_access_token, bind.
  by rewrite (is_blacklisted_live refresh_token w r).
Qed.

(** C10: token refresh writes neither to the user table nor to the audit
    log, on any path; the revocation table is either left as it is or loses
    the expired record of this very token. *)
Theorem C10_refresh_frame (refresh_token : string) (w : World) :
  let w' := (refresh_access_token refresh_token w).2 in
  users w' = users w
  ∧ auth_logs w' = auth_logs w
  ∧ (blacklisted_tokens w' = blacklisted_tokens w
     ∨ ∃ r, blacklisted_tokens w !! refresh_token = Some r
            ∧ BlacklistedToken.expires_at r ≤ wall (ticks w)
            ∧ blacklisted_tokens w' = delete refresh_token (blacklisted_tokens w)).
Proof.
  unfold refresh_access_token, bind, timezone_now, ret.
  destruct (blacklisted_tokens w !! refresh_token) as [r |] eqn:Hr.
  - destruct (Z_lt_le_dec (wall (ticks w)) (BlacklistedToken.expires_at r)).
    + rewrite (is_blacklisted_live refresh_token w r) by done. cbn. auto.
    + rewrite (is_blacklisted_expired refresh_token w r) by done.
      destruct (RefreshToken_parse _ _); cbn; eauto 10.
  - rewrite is_blacklisted_absent by done.
    destruct (RefreshToken_parse _ _); cbn; auto.
Qed.

(** ** The refresh endpoint *)

Lemma refresh_malformed request_data errors w :
  TokenRefreshSerializer request_data = inr errors →
  refresh request_data w = (mkResponse errors HTTP_400_BAD_REQUEST, w).
Proof. unfold refresh. by intros ->. Qed.

Lemma refresh_revoked request_data refresh_token w :
  TokenRefreshSerializer request_data = inl refresh_token →
  (is_blacklisted refresh_token w).1 = true →
  (refresh request_data w).1
    = mkResponse
        (_error_response AuthErrorCodes.TOKEN_REVOKED "Token has been revoked")
        HTTP_401_UNAUTHORIZED.
Proof.
  unfold refresh, refresh_access_token, bind, ret. intros ->.
  by destruct (is_blacklisted refresh_token w) as [[] w1].
Qed.

Lemma refresh_invalid request_data refresh_token w e :
  TokenRefreshSerializer request_data = inl refresh_token →
  (is_blacklisted refresh_token w).1 = false →
  RefreshToken_parse (wall (ticks (is_blacklisted refresh_token w).2))
                     refresh_token = inr e →
  (refresh request_data w).1
    = mkResponse
        (_error_response AuthErrorCodes.TOKEN_REFRESH_FAILED
           ("Invalid token: " +:+ e))
        HTTP_401_UNAUTHORIZED.
Proof.
  unfold refresh, refresh_access_token, bind, ret, timezone_now. intros ->.
  destruct (is_blacklisted refresh_token w) as [[] w1]; [done |].
  cbn [fst snd]. by intros _ ->.
Qed.

Lemma refresh_valid request_data refresh_token w token_obj :
  TokenRefreshSerializer request_data = inl refresh_token →
  (is_blacklisted refresh_token w).1 = false →
  RefreshToken_parse (wall (ticks (is_blacklisted refresh_token w).2))
                     refresh_token = inl token_obj →
  (refresh request_data w).1
    = mkResponse
        (_success_response
           [("access_token", PyStr (str (access_token token_obj)))])
        HTTP_200_OK.
Proof.
  unfold refresh, refresh_access_token, bind, ret, timezone_now. intros ->.
  destruct (is_blacklisted refresh_token w) as [[] w1]; [done |].
  cbn [fst snd]. by intros _ ->.
Qed.

(** C4, as the code has it: the refresh endpoint answers 400 to a request
    body the serializer rejects, 401 to a revoked token and also 401 to a
    token that is not revoked but that the token library rejects; a
    token that is neither gets 200. *)
Theorem C4_refresh_status_codes (request_data : RequestData) (w : World) :
  (∀ errors, TokenRefreshSerializer request_data = inr errors →
     status_code (refresh request_data w).1 = 400)
  ∧ (∀ refresh_token,
       TokenRefreshSerializer request_data = inl refresh_token →
       (is_blacklisted refresh_token w).1 = true →
       status_code (refresh request_data w).1 = 401
       ∧ dict_get "error_code" (data (refresh request_data w).1)
           = Some (PyStr "AUTH-005"))
  ∧ (∀ refresh_token e,
       TokenRefreshSerializer request_data = inl refresh_token →
       (is_blacklisted refresh_token w).1 = false →
       RefreshToken_parse (wall (ticks (is_blacklisted refresh_token w).2))
                          refresh_token = inr e →
       status_code (refresh request_data w).1 = 401
       ∧ dict_get "error_code" (data (refresh request_data w).1)
           = Some (PyStr "AUTH-006"))
  ∧ (∀ refresh_token token_obj,
       TokenRefreshSerializer request_data = inl refresh_token →
       (is_blacklisted refresh_token w).1 = false →
       RefreshToken_parse (wall (ticks (is_blacklisted refresh_token w).2))
                          refresh_token = inl token_obj →
       status_code (refresh request_data w).1 = 200).
Proof.
  split; [| split; [| split]].
  - intros errors H. by rewrite (refresh_malformed _ errors).
  - intros tok H Hrev. by rewrite (refresh_revoked _ tok).
  - intros tok e H Hrev Hparse. by rewrite (refresh_invalid _ tok w e).
  - intros tok token_obj H Hrev Hparse. by rewrite (refresh_valid _ tok w token_obj).
Qed.

(** ** The paths of [login] *)

Lemma _log_auth_event_run event_data w :
  _log_auth_event event_data w
    = (tt, set_auth_logs (λ rows, app rows [audit_row event_data (wall (ticks w))])
             (set_ticks S w)).
Proof. done. Qed.

Lemma reset_failed_attempts_run self w :
  reset_failed_attempts self w
    = (attempts_reset self,
       (save (attempts_reset self)
             [User.f_failed_login_attempts; User.f_account_locked_until] w).2).
Proof. done. Qed.

Lemma login_unknown_user username password ip_address user_agent w :
  users w !! username = None →
  login username password ip_address user_agent w
    = (_error_response AuthErrorCodes.INVALID_CREDENTIALS "Invalid credentials",
       (_log_auth_event
          (login_failed_event username ip_address user_agent
             "Invalid username" None) w).2).
Proof. unfold login, bind, User_objects_get. by intros ->. Qed.

Lemma login_locked username password ip_address user_agent w user u1 w1 :
  users w !! username = Some user →
  is_account_locked user w = ((true, u1), w1) →
  login username password ip_address user_agent w
    = (_error_response AuthErrorCodes.ACCOUNT_LOCKED
         ("Account is locked. Try again after " +:+
          from_option strftime_HM "" (User.account_locked_until u1)),
       (_log_auth_event
          (login_failed_event username ip_address user_agent
             "Account locked" (Some u1)) w1).2).
Proof. unfold login, bind, User_objects_get. by intros -> ->. Qed.

Lemma login_inactive username password ip_address user_agent w user u1 w1 :
  users w !! username = Some user →
  is_account_locked user w = ((false, u1), w1) →
  User.is_active u1 = false →
  login username password ip_address user_agent w
    = (_error_response AuthErrorCodes.INACTIVE_ACCOUNT
         "Account is inactive. Please contact administrator.",
       (_log_auth_event
          (login_failed_event username ip_address user_agent
             "Account inactive" (Some u1)) w1).2).
Proof. unfold login, bind, User_objects_get. by intros -> -> ->. Qed.

Lemma login_wrong_password username password ip_address user_agent w user u1 w1 :
  users w !! username = Some user →
  is_account_locked user w = ((false, u1), w1) →
  User.is_active u1 = true →
  check_password password (User.password u1) = false →
  let u2 := (increment_failed_attempts u1 w1).1 in
  let w2 := (increment_failed_attempts u1 w1).2 in
  let w3 := (_log_auth_event
               (login_failed_event username ip_address user_agent
                  "Invalid password" (Some u2)) w2).2 in
  login username password ip_address user_agent w
    = (if (is_account_locked u2 w3).1.1 then
         _error_response AuthErrorCodes.ACCOUNT_LOCKED
           "Too many failed attempts. Account locked for 15 minutes."
       else
         _error_response AuthErrorCodes.INVALID_CREDENTIALS "Invalid credentials",
       (is_account_locked u2 w3).2).
Proof.
  unfold login, bind, User_objects_get. intros -> -> -> ->. cbn [negb].
  destruct (increment_failed_attempts u1 w1) as [u2 w2]. cbn [fst snd].
  rewrite _log_auth_event_run. cbn [fst snd].
  by destruct (is_account_locked u2 _) as [[[] u3] w4].
Qed.

Lemma login_success username password ip_address user_agent w user u1 w1 :
  users w !! username = Some user →
  is_account_locked user w = ((false, u1), w1) →
  User.is_active u1 = true →
  check_password password (User.password u1) = true →
  let w2 := (reset_failed_attempts u1 w1).2 in
  let u3 := login_stamped (wall (ticks w2)) ip_address (attempts_reset u1) in
  let w3 := (save u3 [User.f_last_login; User.f_last_login_ip] (set_ticks S w2)).2 in
  let refresh :=
    set_claim "username" (User.username u3)
      (set_claim "role" (User.role u3)
         (RefreshToken_for_user (wall (ticks w3)) u3)) in
  login username password ip_address user_agent w
    = (_success_response
         [("access_token", PyStr (str (access_token refresh)));
          ("refresh_token", PyStr (str refresh));
          ("user", PyDict (_serialize_user u3))],
       (_log_auth_event
          (login_success_event username ip_address user_agent u3)
          (set_ticks S w3)).2).
Proof.
  unfold login, bind, User_objects_get. by intros -> -> -> ->.
Qed.

(** The three ways [is_account_locked] can go. *)
Lemma is_account_locked_cases self w :
  (User.account_locked_until self = None
   ∧ is_account_locked self w = ((false, self), w))
  ∨ (∃ locked_until,
       User.account_locked_until self = Some locked_until
       ∧ wall (ticks w) < locked_until
       ∧ is_account_locked self w = ((true, self), set_ticks S w))
  ∨ (∃ locked_until,
       User.account_locked_until self = Some locked_until
       ∧ locked_until ≤ wall (ticks w)
       ∧ is_account_locked self w
           = ((false, lapse_cleared self),
              (save (lapse_cleared self)
                    [User.f_account_locked_until; User.f_failed_login_attempts]
                    (set_ticks S w)).2)).
Proof.
  destruct (User.account_locked_until self) as [l |] eqn:Hl.
  - destruct (Z_lt_le_dec (wall (ticks w)) l).
    + right; left. eauto using is_account_locked_before.
    + right; right. eauto using is_account_locked_lapsed.
  - left. auto using is_account_locked_unset.
Qed.

(** None of the [User] methods writes to the audit log. *)
Lemma is_account_locked_logs self w :
  auth_logs (is_account_locked self w).2 = auth_logs w.
Proof.
  destruct (is_account_locked_cases self w)
    as [[_ ->] | [(l & _ & _ & ->) | (l & _ & _ & ->)]]; done.
Qed.

Lemma increment_logs self w :
  auth_logs (increment_failed_attempts self w).2 = auth_logs w.
Proof.
  destruct (Z_lt_le_dec (User.failed_login_attempts self + 1) 5).
  - by rewrite increment_below_threshold.
  - by rewrite increment_at_threshold.
Qed.

(** The query order is a total preorder on rows. *)
#[local] Instance newest_first_transitive : Transitive newest_first.
Proof. unfold newest_first. intros a b c Hab Hbc. lia. Qed.

#[local] Instance newest_first_total : Total newest_first.
Proof. unfold newest_first. intros a b. lia. Qed.

(** The five outcomes of [login], each with the one audit row it writes. *)
Lemma login_audit_row username password ip_address user_agent w :
  ∃ (event_data : AuthEventData.t) (now : Z),
    auth_logs (login username password ip_address user_agent w).2
      = app (auth_logs w) [audit_row event_data now]
    ∧ AuthEventData.username event_data = username
    ∧ AuthEventData.ip_address event_data = ip_address
    ∧ AuthEventData.user_agent event_data = user_agent
    ∧ (AuthEventData.event_type event_data = "login_success"
       ∨ AuthEventData.event_type event_data = "login_failed").
Proof.
  destruct (users w !! username) as [user |] eqn:Huser.
  2:{ rewrite login_unknown_user by done. eexists _, _. split; [done |].
      cbn. auto. }
  destruct (is_account_locked user w) as [[locked u1] w1] eqn:Hchk.
  assert (Hlogs1 : auth_logs w1 = auth_logs w).
  { by rewrite <- (is_account_locked_logs user w), Hchk. }
  destruct locked.
  { rewrite (login_locked _ _ _ _ _ user u1 w1) by done.
    eexists _, _. rewrite _log_auth_event_run. cbn. rewrite Hlogs1.
    split; [done |]. auto. }
  destruct (User.is_active u1) eqn:Hactive.
  2:{ rewrite (login_inactive _ _ _ _ _ user u1 w1) by done.
      eexists _, _. rewrite _log_auth_event_run. cbn. rewrite Hlogs1.
      split; [done |]. auto. }
  destruct (check_password password (User.password u1)) eqn:Hpw.
  - rewrite (login_success _ _ _ _ _ user u1 w1) by done.
    eexists _, _. rewrite _log_auth_event_run. cbn. rewrite Hlogs1.
    split; [done |]. auto.
  - rewrite (login_wrong_password _ _ _ _ _ user u1 w1) by done.
    eexists _, _. cbn [snd]. rewrite is_account_locked_logs.
    rewrite _log_auth_event_run. cbn. rewrite increment_logs, Hlogs1.
    split; [done |]. auto.
Qed.

(** C2: whatever its outcome, one call of login appends exactly one row to
    the audit log (for the attempted username, of type login_success or
    login_failed), and the audit trail as a query returns it, whole or for
    one user, holds the rows of the log sorted newest-first on the creation
    timestamp. *)
Theorem C2_login_writes_one_audit_record
    (username password ip_address user_agent : string) (w : World) :
  let w' := (login username password ip_address user_agent w).2 in
  (∃ row, auth_logs w' = app (auth_logs w) [row]
          ∧ AuthLog.username_attempted row = username
          ∧ (AuthLog.event_type row = "login_success"
             ∨ AuthLog.event_type row = "login_failed"))
  ∧ length (auth_logs w') = S (length (auth_logs w))
  ∧ StronglySorted newest_first (AuthLog_objects_all w')
  ∧ AuthLog_objects_all w' ≡ₚ auth_logs w'
  ∧ ∀ user_id,
      StronglySorted newest_first (AuthLog_objects_filter_user user_id w')
      ∧ AuthLog_objects_filter_user user_id w'
          ≡ₚ filter (λ row, AuthLog.user row = Some user_id) (auth_logs w').
Proof.
  intros w'.
  destruct (login_audit_row username password ip_address user_agent w)
    as (event_data & now & Hlogs & Hname & _ & _ & Htype).
  fold w' in Hlogs. split; [| split; [| split; [| split]]].
  - exists (audit_row event_data now). by rewrite Hlogs.
  - rewrite Hlogs, length_app. cbn. lia.
  - apply StronglySorted_merge_sort; apply _.
  - apply merge_sort_Permutation.
  - intros user_id. split.
    + apply StronglySorted_merge_sort; apply _.
    + apply merge_sort_Permutation.
Qed.

(** ** The invariant of the security columns *)

Lemma store_invariant_frame w w' :
  users w' = users w → store_invariant w → store_invariant w'.
Proof. unfold store_invariant. by intros ->. Qed.

Lemma store_invariant_save self update_fields w :
  (∀ row, security_invariant row →
          security_invariant (foldr (User.write_field self) row update_fields)) →
  store_invariant w →
  store_invariant (save self update_fields w).2.
Proof.
  intros Hfields Hinv key row'. unfold save, set_users; cbn.
  rewrite lookup_alter. case_decide as Hkey; [| by apply Hinv].
  destruct (users w !! User.username self) as [row |] eqn:Hrow; cbn; [| done].
  intros [= <-]. eapply Hfields, Hinv, Hrow.
Qed.

(** Writing both lock columns of an object that satisfies the invariant
    gives a row that satisfies it. *)
Lemma write_lock_columns_invariant self row :
  security_invariant self →
  security_invariant
    (foldr (User.write_field self) row
       [User.f_failed_login_attempts; User.f_account_locked_until])
  ∧ security_invariant
      (foldr (User.write_field self) row
         [User.f_account_locked_until; User.f_failed_login_attempts]).
Proof. by destruct self, row. Qed.

Lemma write_login_columns_invariant self row :
  security_invariant row →
  security_invariant
    (foldr (User.write_field self) row [User.f_last_login; User.f_last_login_ip]).
Proof. by destruct self, row. Qed.

Lemma lapse_cleared_invariant self : security_invariant (lapse_cleared self).
Proof. split; cbn; [lia | by intros []]. Qed.

Lemma attempts_reset_invariant self : security_invariant (attempts_reset self).
Proof. split; cbn; [lia | by intros []]. Qed.

Lemma is_account_locked_invariant self w :
  security_invariant self → store_invariant w →
  security_invariant (is_account_locked self w).1.2
  ∧ store_invariant (is_account_locked self w).2.
Proof.
  intros Hself Hw.
  destruct (is_account_locked_cases self w)
    as [[_ ->] | [(l & _ & _ & ->) | (l & _ & _ & ->)]]; cbn [fst snd].
  - done.
  - done.
  - split; [apply lapse_cleared_invariant |].
    apply store_invariant_save; [| done].
    intros row _. apply write_lock_columns_invariant, lapse_cleared_invariant.
Qed.

Lemma reset_failed_attempts_invariant self w :
  store_invariant w →
  security_invariant (reset_failed_attempts self w).1
  ∧ store_invariant (reset_failed_attempts self w).2.
Proof.
  intros Hw. rewrite reset_failed_attempts_run. cbn [fst snd].
  split; [apply attempts_reset_invariant |].
  apply store_invariant_save; [| done].
  intros row _. apply write_lock_columns_invariant, attempts_reset_invariant.
Qed.

Lemma increment_object_invariant self w :
  security_invariant self →
  security_invariant (increment_failed_attempts self w).1.
Proof.
  intros [Hnonneg Hlock].
  destruct (Z_lt_le_dec (User.failed_login_attempts self + 1) 5).
  - rewrite increment_below_threshold by done. split; cbn; [lia |].
    intros Hsome. specialize (Hlock Hsome). lia.
  - rewrite increment_at_threshold by done. split; cbn; lia.
Qed.

Lemma increment_invariant self w :
  security_invariant self → store_invariant w →
  security_invariant (increment_failed_attempts self w).1
  ∧ store_invariant (increment_failed_attempts self w).2.
Proof.
  intros Hself Hw. split; [by apply increment_object_invariant |].
  pose proof (increment_object_invariant self w Hself) as Hobj.
  destruct (Z_lt_le_dec (User.failed_login_attempts self + 1) 5).
  - rewrite increment_below_threshold in Hobj |- * by done. cbn [fst snd] in *.
    apply store_invariant_save; [| done].
    intros row _. by apply write_lock_columns_invariant.
  - rewrite increment_at_threshold in Hobj |- * by done. cbn [fst snd] in *.
    apply store_invariant_save; [| done].
    intros row _. by apply write_lock_columns_invariant.
Qed.

Lemma login_invariant username password ip_address user_agent w :
  store_invariant w →
  store_invariant (login username password ip_address user_agent w).2.
Proof.
  intros Hw.
  destruct (users w !! username) as [user |] eqn:Huser.
  2:{ by rewrite login_unknown_user. }
  pose proof (Hw _ _ Huser) as Huser_inv.
  destruct (is_account_locked_invariant user w Huser_inv Hw) as [Hu1 Hw1].
  destruct (is_account_locked user w) as [[locked u1] w1] eqn:Hchk.
  cbn [fst snd] in Hu1, Hw1.
  destruct locked.
  { by rewrite (login_locked _ _ _ _ _ user u1 w1). }
  destruct (User.is_active u1) eqn:Hactive.
  2:{ by rewrite (login_inactive _ _ _ _ _ user u1 w1). }
  destruct (check_password password (User.password u1)) eqn:Hpw.
  - rewrite (login_success _ _ _ _ _ user u1 w1) by done. cbn [snd].
    rewrite _log_auth_event_run. cbn [snd].
    eapply store_invariant_frame; [done |].
    apply store_invariant_save; [intros row; apply write_login_columns_invariant |].
    eapply store_invariant_frame; [done |].
    by apply reset_failed_attempts_invariant.
  - rewrite (login_wrong_password _ _ _ _ _ user u1 w1) by done. cbn [snd].
    destruct (increment_invariant u1 w1 Hu1 Hw1) as [Hu2 Hw2].
    apply is_account_locked_invariant; [done |].
    by rewrite _log_auth_event_run.
Qed.

(** C7: the invariant (failed_login_attempts is not negative, and
    account_locked_until is non-null only while failed_login_attempts is at
    least 5) holds of a user with the default columns and is preserved, in
    the object and in every row of the user table, by
    increment_failed_attempts, reset_failed_attempts, is_account_locked
    (so also by its lapse-clearing branch) and by login on every path. *)
Theorem C7_security_invariant_preserved :
  (∀ u, User.failed_login_attempts u = 0 →
        User.account_locked_until u = None → security_invariant u)
  ∧ (∀ self w, security_invariant self → store_invariant w →
       security_invariant (increment_failed_attempts self w).1
       ∧ store_invariant (increment_failed_attempts self w).2)
  ∧ (∀ self w, store_invariant w →
       security_invariant (reset_failed_attempts self w).1
       ∧ store_invariant (reset_failed_attempts self w).2)
  ∧ (∀ self w, security_invariant self → store_invariant w →
       security_invariant (is_account_locked self w).1.2
       ∧ store_invariant (is_account_locked self w).2)
  ∧ (∀ username password ip_address user_agent w, store_invariant w →
       store_invariant (login username password ip_address user_agent w).2).
Proof.
  split; [| split; [| split; [| split]]].
  - intros u Hzero Hnone. unfold security_invariant. rewrite Hzero, Hnone.
    split; [lia | by intros []].
  - apply increment_invariant.
  - apply reset_failed_attempts_invariant.
  - apply is_account_locked_invariant.
  - apply login_invariant.
Qed.

(** ** The wrong-password and the success path of [login] *)

Lemma is_account_locked_false_unlocked self w u1 w1 :
  is_account_locked self w = ((false, u1), w1) →
  User.account_locked_until u1 = None.
Proof.
  destruct (is_account_locked_cases self w)
    as [[Hnone ->] | [(l & _ & _ & ->) | (l & _ & _ & ->)]]; intros [= <- <-]; done.
Qed.

Lemma is_account_locked_true_locked self w u1 w1 :
  is_account_locked self w = ((true, u1), w1) →
  u1 = self ∧ w1 = set_ticks S w ∧ Locked (wall (ticks w)) self.
Proof.
  destruct (is_account_locked_cases self w)
    as [[Hnone ->] | [(l & Hl & Hlt & ->) | (l & _ & _ & ->)]]; intros [= <- <-].
  unfold Locked. eauto.
Qed.

Lemma is_account_locked_in_sync self w :
  in_sync self w →
  in_sync (is_account_locked self w).1.2 (is_account_locked self w).2.
Proof.
  intros Hsync.
  destruct (is_account_locked_cases self w)
    as [[_ ->] | [(l & _ & _ & ->) | (l & _ & _ & ->)]]; cbn [fst snd]; [done .. |].
  apply in_sync_save_lock_columns with (self0 := self);
    [by apply in_sync_ticks | done | by destruct self].
Qed.

Lemma is_account_locked_profile self w :
  same_profile (is_account_locked self w).1.2 self.
Proof.
  destruct (is_account_locked_cases self w)
    as [[_ ->] | [(l & _ & _ & ->) | (l & _ & _ & ->)]]; by repeat split.
Qed.

Lemma increment_profile self w :
  same_profile (increment_failed_attempts self w).1 self.
Proof.
  destruct (Z_lt_le_dec (User.failed_login_attempts self + 1) 5).
  - rewrite increment_below_threshold by done. by repeat split.
  - rewrite increment_at_threshold by done. by repeat split.
Qed.


(** C6: a login with the right password on an existing, unlocked, active
    account (whose row is filed under its own username), whatever the
    failure count was.  Afterwards the row of the user
    has failed_login_attempts 0, no account_locked_until and the caller's
    address as last_login_ip; the result is a success carrying an access
    token, a refresh token (minted for this user, with the role and username
    claims) and a user projection whose keys are exactly id, username, email,
    role, full_name and department, so the password hash is not among
    them. *)
Theorem C6_successful_login
    (username password ip_address user_agent : string)
    (w w1 : World) (user u1 : User.t) :
  users w !! username = Some user →
  User.username user = username →
  is_account_locked user w = ((false, u1), w1) →
  User.is_active u1 = true →
  check_password password (User.password u1) = true →
  let result := (login username password ip_address user_agent w).1 in
  let w' := (login username password ip_address user_agent w).2 in
  (∃ row, users w' !! username = Some row
          ∧ same_profile row user
          ∧ User.failed_login_attempts row = 0
          ∧ User.account_locked_until row = None
          ∧ User.last_login_ip row = Some ip_address
          ∧ ∃ minted_at,
              let refresh := set_claim "username" (User.username user)
                               (set_claim "role" (User.role user)
                                  (RefreshToken_for_user minted_at row)) in
              dict_get "access_token" result = Some (PyStr (str (access_token refresh)))
              ∧ dict_get "refresh_token" result = Some (PyStr (str refresh)))
  ∧ dict_keys result = ["success"; "access_token"; "refresh_token"; "user"]
  ∧ dict_get "success" result = Some (PyBool true)
  ∧ (∃ projection,
       dict_get "user" result = Some (PyDict projection)
       ∧ projection = [("id", PyInt (User.id user));
                       ("username", PyStr (User.username user));
                       ("email", PyStr (User.email user));
                       ("role", PyStr (User.role user));
                       ("full_name", PyStr (User.full_name user));
                       ("department", PyStr (User.department user))]
       ∧ dict_keys projection
           = ["id"; "username"; "email"; "role"; "full_name"; "department"]
       ∧ dict_get "password" projection = None).
Proof.
  intros Huser Hname Hchk Hactive Hpw result w'.
  assert (Hsync1 : in_sync u1 w1).
  { pose proof (is_account_locked_in_sync user w) as H. rewrite Hchk in H.
    cbn in H. apply H. unfold in_sync. by rewrite Hname. }
  assert (Hprofile1 : same_profile u1 user).
  { pose proof (is_account_locked_profile user w) as H. by rewrite Hchk in H. }
  assert (Hrun : login username password ip_address user_agent w
                 = (_, _)) by exact (login_success _ _ _ _ _ _ _ _
                                        Huser Hchk Hactive Hpw).
  rewrite reset_failed_attempts_run in Hrun. cbn [snd] in Hrun.
  set (w2 := (save (attempts_reset u1) _ w1).2) in Hrun.
  set (u3 := login_stamped (wall (ticks w2)) ip_address (attempts_reset u1)) in Hrun.
  set (w3 := (save u3 _ (set_ticks S w2)).2) in Hrun.
  assert (Hsync2 : in_sync (attempts_reset u1) w2).
  { apply in_sync_save_lock_columns with (self0 := u1); [done | done |].
    by destruct u1. }
  assert (Hsync3 : in_sync u3 w3).
  { apply in_sync_save_lock_columns with (self0 := attempts_reset u1);
      [by apply in_sync_ticks | done | by destruct u1]. }
  assert (Hprofile3 : same_profile u3 user).
  { destruct Hprofile1 as (? & ? & ? & ? & ? & ? & ? & ? & ?). by repeat split. }
  pose proof Hprofile3 as (Hid & Hname3 & _ & Hemail & Hrole & Hfull & Hdept & _).
  subst result w'. rewrite Hrun. cbn [fst snd].
  split; [| split; [done | split; [done |]]].
  - exists u3. split.
    { rewrite _log_auth_event_run. unfold in_sync in Hsync3.
      rewrite Hname3, Hname in Hsync3. exact Hsync3. }
    split; [done |]. do 3 (split; [done |]).
    exists (wall (ticks w3)). cbn in Hname3, Hrole |- *. by rewrite Hname3, Hrole.
  - eexists. split; [done |]. unfold _serialize_user.
    cbn in Hid, Hname3, Hemail, Hrole, Hfull, Hdept |- *.
    by rewrite Hid, Hname3, Hemail, Hrole, Hfull, Hdept.
Qed.

(** ** Logout *)

Lemma logout_invalid_token user refresh_token ip_address user_agent w e :
  RefreshToken_parse (wall (ticks w)) refresh_token = inr e →
  logout user refresh_token ip_address user_agent w
    = (_error_response AuthErrorCodes.LOGOUT_FAILED ("Invalid token: " +:+ e),
       set_ticks S w).
Proof. unfold logout, bind, timezone_now, ret. by intros ->. Qed.

Lemma logout_duplicate user refresh_token ip_address user_agent w token_obj r :
  RefreshToken_parse (wall (ticks w)) refresh_token = inl token_obj →
  blacklisted_tokens w !! refresh_token = Some r →
  logout user refresh_token ip_address user_agent w
    = (_error_response AuthErrorCodes.LOGOUT_FAILED
         ("Logout failed: " +:+ IntegrityError_str refresh_token),
       set_ticks S (set_ticks S w)).
Proof.
  unfold logout, BlacklistedToken_objects_create, BlacklistedToken_objects_get,
    bind, timezone_now, ret.
  intros -> Hr. cbn. by rewrite Hr.
Qed.

Lemma audit_insert_error_None event_data :
  audit_insert_error event_data = None
  ↔ AuthEventData.ip_address event_data ≠ ""
    ∧ AuthLog_insert_error event_data = None.
Proof.
  unfold audit_insert_error.
  destruct (AuthLog_insert_error event_data) as [e |];
    [by split; [| intros [_ ?]] |].
  destruct (String.eqb_spec (AuthEventData.ip_address event_data) "");
    [by split; [| intros [? _]] | done].
Qed.

Lemma audit_insert_error_empty event_data :
  AuthEventData.ip_address event_data = "" →
  is_Some (audit_insert_error event_data).
Proof.
  intros Hempty. unfold audit_insert_error. rewrite Hempty.
  by destruct (AuthLog_insert_error event_data).
Qed.

Lemma logout_tables user refresh_token ip_address user_agent w token_obj :
  RefreshToken_parse (wall (ticks w)) refresh_token = inl token_obj →
  blacklisted_tokens w !! refresh_token = None →
  let w' := (logout user refresh_token ip_address user_agent w).2 in
  users w' = users w
  ∧ blacklisted_tokens w'
      = <[refresh_token :=
            revocation_row user refresh_token token_obj (wall (S (ticks w)))]>
          (blacklisted_tokens w)
  ∧ ticks w' = S (S (S (ticks w))).
Proof.
  unfold logout, BlacklistedToken_objects_create, BlacklistedToken_objects_get,
    AuthLog_objects_create, bind, timezone_now, ret.
  intros -> Hr. cbn. rewrite Hr.
  by destruct (audit_insert_error _).
Qed.

Lemma logout_fresh user refresh_token ip_address user_agent w token_obj :
  RefreshToken_parse (wall (ticks w)) refresh_token = inl token_obj →
  blacklisted_tokens w !! refresh_token = None →
  audit_insert_error (logout_event user ip_address user_agent) = None →
  logout user refresh_token ip_address user_agent w
    = (_success_response [("message", PyStr "Logged out successfully")],
       mkWorld
         (users w)
         (<[refresh_token :=
              revocation_row user refresh_token token_obj (wall (S (ticks w)))]>
            (blacklisted_tokens w))
         (app (auth_logs w)
            [audit_row (logout_event user ip_address user_agent)
               (wall (S (S (ticks w))))])
         (S (S (S (ticks w))))).
Proof.
  unfold logout, BlacklistedToken_objects_create, BlacklistedToken_objects_get,
    AuthLog_objects_create, logout_event, bind, timezone_now, ret.
  intros -> Hr Hstored. cbn. by rewrite Hr, Hstored.
Qed.

Lemma logout_audit_refused user refresh_token ip_address user_agent w token_obj e :
  RefreshToken_parse (wall (ticks w)) refresh_token = inl token_obj →
  blacklisted_tokens w !! refresh_token = None →
  audit_insert_error (logout_event user ip_address user_agent) = Some e →
  logout user refresh_token ip_address user_agent w
    = (_error_response AuthErrorCodes.LOGOUT_FAILED ("Logout failed: " +:+ e),
       mkWorld
         (users w)
         (<[refresh_token :=
              revocation_row user refresh_token token_obj (wall (S (ticks w)))]>
            (blacklisted_tokens w))
         (auth_logs w)
         (S (S (S (ticks w))))).
Proof.
  unfold logout, BlacklistedToken_objects_create, BlacklistedToken_objects_get,
    AuthLog_objects_create, logout_event, bind, timezone_now, ret.
  intros -> Hr Hrefused. cbn. by rewrite Hr, Hrefused.
Qed.

(** X1: a logout with a token the token library accepts and that is not in
    the revocation table yet.  The table gains one record for this token
    (owner, reason logout, expiry taken from the token's exp claim) and the
    user table is left as it is, whatever the client address.  When the
    address is not empty and the database takes the audit row, the answer is
    the success message and the audit log gains one successful logout row
    for the user.  When the address is empty, or the database refuses the
    row for a reason of its own, the answer is LOGOUT_FAILED with the text
    of the database error and no audit row is written, while the revocation
    record stays. *)
Theorem X1_logout_revokes_and_audits
    (user : User.t) (refresh_token ip_address user_agent : string)
    (w : World) (token_obj : Token) :
  RefreshToken_parse (wall (ticks w)) refresh_token = inl token_obj →
  blacklisted_tokens w !! refresh_token = None →
  let result := (logout user refresh_token ip_address user_agent w).1 in
  let w' := (logout user refresh_token ip_address user_agent w).2 in
  let refused :=
    AuthLog_insert_error
      (AuthEventData.mk (User.username user) "logout" ip_address user_agent
         true "" (Some user)) in
  users w' = users w
  ∧ (∃ created_at,
       blacklisted_tokens w'
         = <[refresh_token :=
               BlacklistedToken.mk refresh_token (User.id user) "logout"
                 (token_exp token_obj * 1000000) created_at]>
             (blacklisted_tokens w))
  ∧ (ip_address ≠ "" → refused = None →
       result = _success_response [("message", PyStr "Logged out successfully")]
       ∧ ∃ created_at,
           auth_logs w'
             = app (auth_logs w)
                 [AuthLog.mk (Some (User.id user)) (User.username user) "logout"
                    ip_address user_agent true "" None created_at])
  ∧ (ip_address = "" →
       (∃ e, result = _error_response "AUTH-004" ("Logout failed: " +:+ e))
       ∧ (refused = None →
            result = _error_response "AUTH-004"
                       ("Logout failed: " +:+ NOT_NULL_str))
       ∧ auth_logs w' = auth_logs w)
  ∧ (∀ e, refused = Some e →
       result = _error_response "AUTH-004" ("Logout failed: " +:+ e)
       ∧ auth_logs w' = auth_logs w).
Proof.
  intros Hparse Hfresh result w' refused. subst result w'.
  fold (logout_event user ip_address user_agent) in refused.
  split; [| split; [| split; [| split]]].
  - by destruct (logout_tables user refresh_token ip_address user_agent w
                   token_obj Hparse Hfresh) as (-> & _).
  - destruct (logout_tables user refresh_token ip_address user_agent w
                token_obj Hparse Hfresh) as (_ & -> & _).
    by eexists.
  - intros Hne Hstored.
    rewrite (logout_fresh _ _ _ _ _ token_obj)
      by (try done; by apply audit_insert_error_None).
    cbn. split; [done |]. by eexists.
  - intros Hempty.
    destruct (audit_insert_error_empty
                (logout_event user ip_address user_agent) Hempty)
      as [e He].
    rewrite (logout_audit_refused _ _ _ _ _ token_obj e) by done.
    cbn [fst snd auth_logs]. split; [by exists e |]. split; [| done].
    intros Hnone. unfold audit_insert_error in He. fold refused in He.
    rewrite Hnone in He. cbn in He. rewrite Hempty in He. cbn in He.
    by injection He as <-.
  - intros e Hrefused.
    assert (He : audit_insert_error (logout_event user ip_address user_agent)
                 = Some e).
    { unfold audit_insert_error. fold refused. by rewrite Hrefused. }
    by rewrite (logout_audit_refused _ _ _ _ _ token_obj e).
Qed.

(** X2: a logout with a token the token library rejects answers
    LOGOUT_FAILED with the library's message and writes nothing: no
    revocation record, no audit row, no change to a user. *)
Theorem X2_logout_with_rejected_token_writes_nothing
    (user : User.t) (refresh_token ip_address user_agent : string)
    (w : World) (e : string) :
  RefreshToken_parse (wall (ticks w)) refresh_token = inr e →
  let result := (logout user refresh_token ip_address user_agent w).1 in
  let w' := (logout user refresh_token ip_address user_agent w).2 in
  result = _error_response "AUTH-004" ("Invalid token: " +:+ e)
  ∧ users w' = users w
  ∧ blacklisted_tokens w' = blacklisted_tokens w
  ∧ auth_logs w' = auth_logs w.
Proof.
  intros Hparse result w'. subst result w'.
  by rewrite (logout_invalid_token _ _ _ _ _ e).
Qed.

(** X3: a token can be logged out once only.  When the token is in the
    revocation table already, whoever asks and whatever the token library
    says of it, logout answers LOGOUT_FAILED, the record that is there stays
    as it is, and no audit row is written. *)
Theorem X3_second_logout_is_refused
    (user : User.t) (refresh_token ip_address user_agent : string)
    (w : World) (r : BlacklistedToken.t) :
  blacklisted_tokens w !! refresh_token = Some r →
  let result := (logout user refresh_token ip_address user_agent w).1 in
  let w' := (logout user refresh_token ip_address user_agent w).2 in
  dict_get "success" result = Some (PyBool false)
  ∧ dict_get "error_code" result = Some (PyStr "AUTH-004")
  ∧ users w' = users w
  ∧ blacklisted_tokens w' = blacklisted_tokens w
  ∧ auth_logs w' = auth_logs w.
Proof.
  intros Hr result w'. subst result w'.
  destruct (RefreshToken_parse (wall (ticks w)) refresh_token)
    as [token_obj | e] eqn:Hparse.
  - by rewrite (logout_duplicate _ _ _ _ _ token_obj r).
  - by rewrite (logout_invalid_token _ _ _ _ _ e).
Qed.

(** The answer of [refresh_access_token] is decided by the revocation
    record of the token and by the clock. *)
Lemma refresh_access_token_answer refresh_token w1 w2 :
  blacklisted_tokens w1 !! refresh_token = blacklisted_tokens w2 !! refresh_token →
  ticks w1 = ticks w2 →
  (refresh_access_token refresh_token w1).1
    = (refresh_access_token refresh_token w2).1.
Proof.
  intros Hrec Hticks. unfold refresh_access_token, bind, timezone_now, ret.
  destruct (blacklisted_tokens w2 !! refresh_token) as [r |] eqn:Hr2.
  - destruct (Z_lt_le_dec (wall (ticks w2)) (BlacklistedToken.expires_at r)).
    + rewrite (is_blacklisted_live refresh_token w1 r),
        (is_blacklisted_live refresh_token w2 r); [done .. |]; by rewrite Hticks.
    + rewrite (is_blacklisted_expired refresh_token w1 r),
        (is_blacklisted_expired refresh_token w2 r); [| done .. |];
        [| by rewrite Hticks].
      cbn. rewrite Hticks. by destruct (RefreshToken_parse _ _).
  - rewrite (is_blacklisted_absent refresh_token w1),
      (is_blacklisted_absent refresh_token w2) by done.
    cbn. rewrite Hticks. by destruct (RefreshToken_parse _ _).
Qed.

(** X4: after a successful logout with token T, every refresh with T whose
    revocation lookup reads the clock before T's expiry is answered
    TOKEN_REVOKED, for as long as the record is in the table; a refresh with
    any other token gets the answer it would have got at the same clock
    reading had the logout not happened. *)
Theorem X4_logout_then_refresh
    (user : User.t) (refresh_token ip_address user_agent : string)
    (w : World) (token_obj : Token) :
  RefreshToken_parse (wall (ticks w)) refresh_token = inl token_obj →
  blacklisted_tokens w !! refresh_token = None →
  let w' := (logout user refresh_token ip_address user_agent w).2 in
  (∀ later,
     blacklisted_tokens later !! refresh_token
       = blacklisted_tokens w' !! refresh_token →
     wall (ticks later) < token_exp token_obj * 1000000 →
     (refresh_access_token refresh_token later).1
       = _error_response "AUTH-005" "Token has been revoked")
  ∧ (∀ other,
       other ≠ refresh_token →
       (refresh_access_token other w').1
         = (refresh_access_token other (set_ticks (λ _, ticks w') w)).1).
Proof.
  intros Hparse Hfresh w'.
  destruct (logout_tables user refresh_token ip_address user_agent w
              token_obj Hparse Hfresh) as (_ & Htable & _).
  fold w' in Htable. clearbody w'.
  split.
  - intros later Hrec Hlt. rewrite Htable, lookup_insert_eq in Hrec.
    unfold refresh_access_token, bind.
    by rewrite (is_blacklisted_live refresh_token later _ Hrec).
  - intros other Hne. apply refresh_access_token_answer; [| done].
    cbn. by rewrite Htable, lookup_insert_ne.
Qed.

(** X5: token refresh never consults the user table or the audit log: two
    worlds that agree on the revocation record of the token and on the clock
    give the same answer, whatever has become of the user the token was
    minted for (inactive, locked, or gone). *)
Theorem X5_refresh_ignores_the_user_table
    (refresh_token : string) (w1 w2 : World) :
  blacklisted_tokens w1 !! refresh_token = blacklisted_tokens w2 !! refresh_token →
  ticks w1 = ticks w2 →
  (refresh_access_token refresh_token w1).1
    = (refresh_access_token refresh_token w2).1.
Proof. apply refresh_access_token_answer. Qed.

(** ** More on the paths of [login] *)

(** Saving an object that differs from its row in the saved columns only
    amounts to replacing the row. *)
Lemma save_as_insert self0 self w update_fields :
  in_sync self0 w →
  User.username self = User.username self0 →
  foldr (User.write_field self) self0 update_fields = self →
  users (save self update_fields w).2 = <[User.username self := self]> (users w).
Proof.
  unfold in_sync. intros Hsync Hname Hfields. rewrite <- Hname in Hsync.
  apply map_eq. intros key. unfold save, set_users; cbn.
  rewrite lookup_alter, lookup_insert. case_decide as Hkey; [| done].
  subst key. by rewrite Hsync; cbn; rewrite Hfields.
Qed.

Lemma login_locked_run username password ip_address user_agent w user locked_until :
  users w !! username = Some user →
  User.account_locked_until user = Some locked_until →
  wall (ticks w) < locked_until →
  login username password ip_address user_agent w
    = (_error_response AuthErrorCodes.ACCOUNT_LOCKED
         ("Account is locked. Try again after " +:+ strftime_HM locked_until),
       mkWorld (users w) (blacklisted_tokens w)
         (app (auth_logs w)
            [audit_row (login_failed_event username ip_address user_agent
                          "Account locked" (Some user))
                       (wall (S (ticks w)))])
         (S (S (ticks w)))).
Proof.
  intros Huser Hlock Hlt.
  rewrite (login_locked _ _ _ _ _ user user (set_ticks S w) Huser)
    by by apply is_account_locked_before with (locked_until := locked_until).
  by rewrite Hlock.
Qed.

Lemma login_wrong_password_below username password ip_address user_agent w user :
  users w !! username = Some user →
  User.username user = username →
  User.account_locked_until user = None →
  User.is_active user = true →
  check_password password (User.password user) = false →
  User.failed_login_attempts user + 1 < 5 →
  login username password ip_address user_agent w
    = (_error_response AuthErrorCodes.INVALID_CREDENTIALS "Invalid credentials",
       mkWorld (<[username := failure_counted user]> (users w))
         (blacklisted_tokens w)
         (app (auth_logs w)
            [audit_row (login_failed_event username ip_address user_agent
                          "Invalid password" (Some (failure_counted user)))
                       (wall (ticks w))])
         (S (ticks w))).
Proof.
  intros Huser Hname Hlock Hactive Hpw Hbelow.
  rewrite (login_wrong_password _ _ _ _ _ user user w Huser)
    by auto using is_account_locked_unset.
  rewrite increment_below_threshold by done. cbn [fst snd].
  rewrite _log_auth_event_run. cbn [snd].
  rewrite is_account_locked_unset by done. cbn [fst snd].
  assert (Husers : users (save (failure_counted user)
                            [User.f_failed_login_attempts;
                             User.f_account_locked_until] w).2
                   = <[username := failure_counted user]> (users w)).
  { rewrite <- Hname.
    apply (save_as_insert user (failure_counted user) w);
      [| done | by destruct user].
    unfold in_sync. by rewrite Hname. }
  f_equal. unfold set_auth_logs, set_ticks. cbn [users blacklisted_tokens auth_logs ticks].
  by rewrite Husers.
Qed.

Lemma login_wrong_password_locking username password ip_address user_agent w user :
  users w !! username = Some user →
  User.username user = username →
  User.account_locked_until user = None →
  User.is_active user = true →
  check_password password (User.password user) = false →
  5 ≤ User.failed_login_attempts user + 1 →
  wall (S (S (ticks w))) < wall (ticks w) + timedelta_minutes 15 →
  login username password ip_address user_agent w
    = (_error_response AuthErrorCodes.ACCOUNT_LOCKED
         "Too many failed attempts. Account locked for 15 minutes.",
       mkWorld
         (<[username := locked_from (wall (ticks w)) (failure_counted user)]>
            (users w))
         (blacklisted_tokens w)
         (app (auth_logs w)
            [audit_row
               (login_failed_event username ip_address user_agent
                  "Invalid password"
                  (Some (locked_from (wall (ticks w)) (failure_counted user))))
               (wall (S (ticks w)))])
         (S (S (S (ticks w))))).
Proof.
  intros Huser Hname Hlock Hactive Hpw Hreach Htime.
  rewrite (login_wrong_password _ _ _ _ _ user user w Huser)
    by auto using is_account_locked_unset.
  rewrite increment_at_threshold by done. cbn [fst snd].
  rewrite _log_auth_event_run. cbn [snd].
  rewrite (is_account_locked_before
             (locked_from (wall (ticks w)) (failure_counted user)) _
             (wall (ticks w) + timedelta_minutes 15))
    by done.
  cbn [fst snd].
  set (ws := (save (locked_from (wall (ticks w)) (failure_counted user))
                [User.f_failed_login_attempts; User.f_account_locked_until]
                (set_ticks S w)).2).
  assert (Husers : users ws
                   = <[username := locked_from (wall (ticks w)) (failure_counted user)]>
                       (users w)).
  { rewrite <- Hname.
    apply (save_as_insert user
             (locked_from (wall (ticks w)) (failure_counted user))
             (set_ticks S w));
      [| done | by destruct user].
    unfold in_sync. by rewrite Hname. }
  assert (Hrest : blacklisted_tokens ws = blacklisted_tokens w
                  ∧ auth_logs ws = auth_logs w ∧ ticks ws = S (ticks w)) by done.
  destruct Hrest as (Hbl & Hlogs & Hticks). clearbody ws.
  f_equal. unfold set_auth_logs, set_ticks.
  cbn [users blacklisted_tokens auth_logs ticks].
  by rewrite Husers, Hbl, Hlogs, Hticks.
Qed.

(** X6: while an account is locked, a login is refused with ACCOUNT_LOCKED
    and the unlock time whatever the password, right or wrong, and it
    changes nothing in the user table: the counter is not incremented and
    the lock is not extended.  The attempt is audited with reason
    "Account locked". *)
Theorem X6_login_while_locked_changes_no_row
    (username password ip_address user_agent : string)
    (w : World) (user : User.t) (locked_until : Z) :
  users w !! username = Some user →
  User.account_locked_until user = Some locked_until →
  wall (ticks w) < locked_until →
  let result := (login username password ip_address user_agent w).1 in
  let w' := (login username password ip_address user_agent w).2 in
  result = _error_response "AUTH-003"
             ("Account is locked. Try again after " +:+ strftime_HM locked_until)
  ∧ users w' = users w
  ∧ blacklisted_tokens w' = blacklisted_tokens w
  ∧ ∃ created_at,
      auth_logs w'
        = app (auth_logs w)
            [AuthLog.mk (Some (User.id user)) username "login_failed" ip_address
               user_agent false "Account locked" None created_at].
Proof.
  intros Huser Hlock Hlt result w'. subst result w'.
  rewrite (login_locked_run _ _ _ _ _ user locked_until) by done. cbn.
  do 3 (split; [done |]). by eexists.
Qed.

(** X7: the active check comes before the password check.  For an inactive
    account with no lock on it, a login is answered INACTIVE_ACCOUNT whatever
    the password, the user table is left as it is (a wrong password is not
    counted), and the attempt is audited with reason "Account inactive". *)
Theorem X7_login_on_inactive_account
    (username password ip_address user_agent : string)
    (w : World) (user : User.t) :
  users w !! username = Some user →
  User.account_locked_until user = None →
  User.is_active user = false →
  let result := (login username password ip_address user_agent w).1 in
  let w' := (login username password ip_address user_agent w).2 in
  result = _error_response "AUTH-002"
             "Account is inactive. Please contact administrator."
  ∧ users w' = users w
  ∧ blacklisted_tokens w' = blacklisted_tokens w
  ∧ ∃ created_at,
      auth_logs w'
        = app (auth_logs w)
            [AuthLog.mk (Some (User.id user)) username "login_failed" ip_address
               user_agent false "Account inactive" None created_at].
Proof.
  intros Huser Hlock Hinactive result w'. subst result w'.
  rewrite (login_inactive _ _ _ _ _ user user w Huser)
    by auto using is_account_locked_unset.
  rewrite _log_auth_event_run. cbn.
  do 3 (split; [done |]). by eexists.
Qed.

(** X8: an unknown username and a wrong password get the same answer.  A
    login for a username that is not in the table answers INVALID_CREDENTIALS
    with the message "Invalid credentials", changes no table but the audit
    log, and its audit row has no user; a wrong password on an unlocked,
    active account whose counter stays below 5 gets that very answer. *)
Theorem X8_unknown_user_and_wrong_password_answer_alike
    (username password ip_address user_agent : string) (w : World) :
  (users w !! username = None →
   let result := (login username password ip_address user_agent w).1 in
   let w' := (login username password ip_address user_agent w).2 in
   result = _error_response "AUTH-001" "Invalid credentials"
   ∧ users w' = users w
   ∧ blacklisted_tokens w' = blacklisted_tokens w
   ∧ ∃ created_at,
       auth_logs w'
         = app (auth_logs w)
             [AuthLog.mk None username "login_failed" ip_address user_agent
                false "Invalid username" None created_at])
  ∧ (∀ user,
       users w !! username = Some user →
       User.username user = username →
       User.account_locked_until user = None →
       User.is_active user = true →
       check_password password (User.password user) = false →
       User.failed_login_attempts user + 1 < 5 →
       (login username password ip_address user_agent w).1
         = _error_response "AUTH-001" "Invalid credentials").
Proof.
  split.
  - intros Hnone result w'. subst result w'.
    rewrite login_unknown_user by done. rewrite _log_auth_event_run. cbn.
    do 3 (split; [done |]). by eexists.
  - intros user Huser Hname Hlock Hactive Hpw Hbelow.
    by rewrite (login_wrong_password_below _ _ _ _ _ user).
Qed.

(** ** What [login] leaves alone *)

Lemma touches_only_refl name w : touches_only name w w.
Proof. by split. Qed.

Lemma touches_only_trans name w1 w2 w3 :
  touches_only name w1 w2 → touches_only name w2 w3 → touches_only name w1 w3.
Proof.
  intros [Hu12 Hb12] [Hu23 Hb23]. split.
  - intros other Hne. by rewrite Hu23, Hu12.
  - by rewrite Hb23.
Qed.

Lemma touches_only_same_tables name w w' :
  users w' = users w → blacklisted_tokens w' = blacklisted_tokens w →
  touches_only name w w'.
Proof. intros Hu Hb. split; [intros other _; by rewrite Hu | done]. Qed.

Lemma save_touches_only self update_fields w :
  touches_only (User.username self) w (save self update_fields w).2.
Proof. split; [intros other Hne; by apply save_lookup_ne | done]. Qed.

Lemma is_account_locked_touches_only self w :
  touches_only (User.username self) w (is_account_locked self w).2.
Proof.
  destruct (is_account_locked_cases self w)
    as [[_ ->] | [(l & _ & _ & ->) | (l & _ & _ & ->)]]; cbn [snd].
  - apply touches_only_refl.
  - by apply touches_only_same_tables.
  - apply touches_only_trans with (set_ticks S w);
      [by apply touches_only_same_tables |].
    apply (save_touches_only (lapse_cleared self)).
Qed.

Lemma increment_touches_only self w :
  touches_only (User.username self) w (increment_failed_attempts self w).2.
Proof.
  destruct (Z_lt_le_dec (User.failed_login_attempts self + 1) 5).
  - rewrite increment_below_threshold by done.
    apply (save_touches_only (failure_counted self)).
  - rewrite increment_at_threshold by done. cbn [snd].
    apply touches_only_trans with (set_ticks S w);
      [by apply touches_only_same_tables |].
    apply (save_touches_only (locked_from (wall (ticks w)) (failure_counted self))).
Qed.

(** X9: a login writes to no row of the user table but the one of the
    attempted username, and never to the revocation table, whatever its
    outcome (the row of that username being filed under its own name). *)
Theorem X9_login_touches_one_row_only
    (username password ip_address user_agent : string) (w : World) :
  (∀ row, users w !! username = Some row → User.username row = username) →
  let w' := (login username password ip_address user_agent w).2 in
  (∀ other, other ≠ username → users w' !! other = users w !! other)
  ∧ blacklisted_tokens w' = blacklisted_tokens w.
Proof.
  intros Hfiled w'. subst w'. fold (touches_only username w
    (login username password ip_address user_agent w).2).
  destruct (users w !! username) as [user |] eqn:Huser.
  2:{ rewrite login_unknown_user by done. by apply touches_only_same_tables. }
  pose proof (Hfiled user eq_refl) as Hname.
  pose proof (is_account_locked_touches_only user w) as Hw1.
  pose proof (is_account_locked_profile user w) as (_ & Hname1 & _).
  destruct (is_account_locked user w) as [[locked u1] w1] eqn:Hchk.
  cbn [fst snd] in Hw1, Hname1. rewrite Hname in Hw1, Hname1.
  destruct locked.
  { rewrite (login_locked _ _ _ _ _ user u1 w1) by done.
    eapply touches_only_trans; [exact Hw1 |]. by apply touches_only_same_tables. }
  destruct (User.is_active u1) eqn:Hactive.
  2:{ rewrite (login_inactive _ _ _ _ _ user u1 w1) by done.
      eapply touches_only_trans; [exact Hw1 |]. by apply touches_only_same_tables. }
  destruct (check_password password (User.password u1)) eqn:Hpw.
  - rewrite (login_success _ _ _ _ _ user u1 w1) by done. cbn [snd].
    rewrite reset_failed_attempts_run. cbn [snd].
    set (w2 := (save (attempts_reset u1) _ w1).2).
    set (u3 := login_stamped (wall (ticks w2)) ip_address (attempts_reset u1)).
    set (w3 := (save u3 _ (set_ticks S w2)).2).
    rewrite _log_auth_event_run. cbn [snd].
    apply touches_only_trans with w1; [exact Hw1 |].
    apply touches_only_trans with w2.
    { subst w2. rewrite <- Hname1. apply (save_touches_only (attempts_reset u1)). }
    apply touches_only_trans with (set_ticks S w2);
      [by apply touches_only_same_tables |].
    apply touches_only_trans with w3; [| by apply touches_only_same_tables].
    subst w3. rewrite <- Hname1. apply (save_touches_only u3).
  - rewrite (login_wrong_password _ _ _ _ _ user u1 w1) by done. cbn [snd].
    pose proof (increment_touches_only u1 w1) as Hw2.
    pose proof (increment_profile u1 w1) as (_ & Hname2 & _).
    rewrite Hname1 in Hw2, Hname2.
    set (u2 := (increment_failed_attempts u1 w1).1) in *.
    set (w2 := (increment_failed_attempts u1 w1).2) in *.
    rewrite _log_auth_event_run. cbn [snd].
    set (w3 := set_auth_logs _ (set_ticks S w2)).
    pose proof (is_account_locked_touches_only u2 w3) as Hw4.
    rewrite Hname2 in Hw4.
    apply touches_only_trans with w1; [exact Hw1 |].
    apply touches_only_trans with w2; [exact Hw2 |].
    apply touches_only_trans with w3; [by apply touches_only_same_tables | exact Hw4].
Qed.

(** ** The lock columns as login keeps them *)

Lemma users_forall_save (P : User.t → Prop) self update_fields w :
  (∀ row, P row → P (foldr (User.write_field self) row update_fields)) →
  (∀ key row, users w !! key = Some row → P row) →
  ∀ key row, users (save self update_fields w).2 !! key = Some row → P row.
Proof.
  intros Hfields Hall key row'. unfold save, set_users; cbn.
  rewrite lookup_alter. case_decide as Hkey; [| by apply Hall].
  destruct (users w !! User.username self) as [row |] eqn:Hrow; cbn; [| done].
  intros [= <-]. eapply Hfields, Hall, Hrow.
Qed.

Lemma lockout_state_columns a b :
  User.failed_login_attempts a = User.failed_login_attempts b →
  User.account_locked_until a = User.account_locked_until b →
  lockout_state a → lockout_state b.
Proof. unfold lockout_state. by intros -> ->. Qed.

Lemma save_lock_columns_lockout_state self w update_fields :
  update_fields = [User.f_failed_login_attempts; User.f_account_locked_until]
  ∨ update_fields = [User.f_account_locked_until; User.f_failed_login_attempts] →
  lockout_state self →
  store_lockout_state w →
  store_lockout_state (save self update_fields w).2.
Proof.
  intros Hfields Hself Hw. unfold store_lockout_state.
  apply (users_forall_save lockout_state); [| done].
  intros row _. apply (lockout_state_columns self); [| | done];
    destruct Hfields as [-> | ->]; by destruct self, row.
Qed.

Lemma lapse_cleared_lockout_state self : lockout_state (lapse_cleared self).
Proof. left. cbn. split; [done | lia]. Qed.

Lemma attempts_reset_lockout_state self : lockout_state (attempts_reset self).
Proof. left. cbn. split; [done | lia]. Qed.

Lemma is_account_locked_lockout_state self w :
  lockout_state self → store_lockout_state w →
  lockout_state (is_account_locked self w).1.2
  ∧ store_lockout_state (is_account_locked self w).2.
Proof.
  intros Hself Hw.
  destruct (is_account_locked_cases self w)
    as [[_ ->] | [(l & _ & _ & ->) | (l & _ & _ & ->)]]; cbn [fst snd];
    [done | done |].
  split; [apply lapse_cleared_lockout_state |].
  apply save_lock_columns_lockout_state;
    [by right | apply lapse_cleared_lockout_state | done].
Qed.

Lemma increment_unlocked_lockout_state self w :
  lockout_state self → User.account_locked_until self = None →
  store_lockout_state w →
  lockout_state (increment_failed_attempts self w).1
  ∧ store_lockout_state (increment_failed_attempts self w).2.
Proof.
  intros [[_ Hrange] | [[l Hl] _]] Hnone Hw; [| congruence].
  destruct (Z_lt_le_dec (User.failed_login_attempts self + 1) 5).
  - rewrite increment_below_threshold by done. cbn [fst snd].
    assert (lockout_state (failure_counted self)) by (left; cbn; split; [done | lia]).
    split; [done |]. apply save_lock_columns_lockout_state; auto.
  - rewrite increment_at_threshold by done. cbn [fst snd].
    assert (lockout_state (locked_from (wall (ticks w)) (failure_counted self)))
      by (right; cbn; split; [by eexists | lia]).
    split; [done |]. apply save_lock_columns_lockout_state; auto.
Qed.

(** X10: through login the failure counter never leaves the range 0 to 5,
    and it is at 5 exactly when the account carries a lock time.  If every
    row of the user table is in such a state, every row still is after a
    login, whatever its arguments and outcome. *)
Theorem X10_login_keeps_the_counter_within_0_and_5
    (username password ip_address user_agent : string) (w : World) :
  (∀ key row, users w !! key = Some row →
     (User.account_locked_until row = None
      ∧ 0 ≤ User.failed_login_attempts row < 5)
     ∨ (is_Some (User.account_locked_until row)
        ∧ User.failed_login_attempts row = 5)) →
  ∀ key row,
    users (login username password ip_address user_agent w).2 !! key = Some row →
    (User.account_locked_until row = None
     ∧ 0 ≤ User.failed_login_attempts row < 5)
    ∨ (is_Some (User.account_locked_until row)
       ∧ User.failed_login_attempts row = 5).
Proof.
  intros Hw. change (store_lockout_state w) in Hw.
  change (store_lockout_state (login username password ip_address user_agent w).2).
  destruct (users w !! username) as [user |] eqn:Huser.
  2:{ by rewrite login_unknown_user. }
  pose proof (Hw _ _ Huser) as Huser_ok.
  destruct (is_account_locked_lockout_state user w Huser_ok Hw) as [Hu1 Hw1].
  destruct (is_account_locked user w) as [[locked u1] w1] eqn:Hchk.
  cbn [fst snd] in Hu1, Hw1.
  destruct locked.
  { by rewrite (login_locked _ _ _ _ _ user u1 w1). }
  destruct (User.is_active u1) eqn:Hactive.
  2:{ by rewrite (login_inactive _ _ _ _ _ user u1 w1). }
  pose proof (is_account_locked_false_unlocked _ _ _ _ Hchk) as Hunlocked.
  destruct (check_password password (User.password u1)) eqn:Hpw.
  - rewrite (login_success _ _ _ _ _ user u1 w1) by done. cbn [snd].
    rewrite _log_auth_event_run, reset_failed_attempts_run. cbn [snd].
    assert (Hw2 : store_lockout_state
                    (save (attempts_reset u1)
                       [User.f_failed_login_attempts; User.f_account_locked_until]
                       w1).2).
    { apply save_lock_columns_lockout_state;
        [by left | apply attempts_reset_lockout_state | done]. }
    intros key row. cbn [users set_auth_logs set_ticks].
    apply (users_forall_save lockout_state); [| exact Hw2].
    intros row0. apply lockout_state_columns; by destruct row0, u1.
  - rewrite (login_wrong_password _ _ _ _ _ user u1 w1) by done. cbn [snd].
    destruct (increment_unlocked_lockout_state u1 w1 Hu1 Hunlocked Hw1)
      as [Hu2 Hw2].
    apply is_account_locked_lockout_state; [done |].
    by rewrite _log_auth_event_run.
Qed.

(** ** Logins in a row *)

Lemma login_attempts_S n username password ip_address user_agent w :
  login_attempts (S n) username password ip_address user_agent w
    = ((login username password ip_address user_agent w).1
         :: (login_attempts n username password ip_address user_agent
               (login username password ip_address user_agent w).2).1,
       (login_attempts n username password ip_address user_agent
          (login username password ip_address user_agent w).2).2).
Proof.
  cbn [login_attempts]. unfold bind, ret.
  destruct (login username password ip_address user_agent w) as [r w1].
  cbn [fst snd].
  by destruct (login_attempts n username password ip_address user_agent w1).
Qed.

Lemma login_attempts_app n m username password ip_address user_agent w :
  login_attempts (n + m) username password ip_address user_agent w
    = (app (login_attempts n username password ip_address user_agent w).1
           (login_attempts m username password ip_address user_agent
              (login_attempts n username password ip_address user_agent w).2).1,
       (login_attempts m username password ip_address user_agent
          (login_attempts n username password ip_address user_agent w).2).2).
Proof.
  revert w. induction n as [| n IH]; intros w.
  - cbn. by destruct (login_attempts m _ _ _ _ w).
  - cbn [Nat.add]. rewrite !login_attempts_S, IH. done.
Qed.

Lemma iter_failure_counted_profile n self :
  same_profile (Nat.iter n failure_counted self) self.
Proof.
  induction n as [| n IH]; [by repeat split |].
  rewrite Nat.iter_succ. destruct IH as (? & ? & ? & ? & ? & ? & ? & ? & ?).
  by repeat split.
Qed.

(** Wrong passwords that keep the counter below 5: every answer is
    INVALID_CREDENTIALS, each login reads the clock once (for its audit row)
    and bumps the counter of the row. *)
Lemma login_attempts_below n username password ip_address user_agent :
  ∀ w user,
    users w !! username = Some user →
    User.username user = username →
    User.account_locked_until user = None →
    User.is_active user = true →
    check_password password (User.password user) = false →
    User.failed_login_attempts user + Z.of_nat n < 5 →
    let run := login_attempts n username password ip_address user_agent w in
    run.1 = replicate n (_error_response AuthErrorCodes.INVALID_CREDENTIALS
                           "Invalid credentials")
    ∧ users run.2 = <[username := Nat.iter n failure_counted user]> (users w)
    ∧ blacklisted_tokens run.2 = blacklisted_tokens w
    ∧ ticks run.2 = (ticks w + n)%nat
    ∧ length (auth_logs run.2) = (length (auth_logs w) + n)%nat.
Proof.
  induction n as [| n IH]; intros w user Huser Hname Hlock Hactive Hpw Hbelow run.
  - subst run. cbn. rewrite insert_id by done. repeat split; lia.
  - subst run. rewrite login_attempts_S.
    rewrite (login_wrong_password_below _ _ _ _ _ user) by (done || lia).
    cbn [fst snd].
    set (w1 := mkWorld _ _ _ _).
    destruct (IH w1 (failure_counted user)) as (Hres & Husers & Hbl & Hticks & Hlen);
      [by apply lookup_insert_eq | done | done | done | done | cbn; lia |].
    rewrite Hres, Husers, Hbl, Hticks, Hlen. subst w1. cbn.
    rewrite insert_insert_eq, <- Nat.iter_succ_r, length_app. cbn.
    repeat split; lia.
Qed.

(** X11: five logins in a row with a wrong password, on an unlocked, active
    account whose counter is at 0, lock it.  The first four are answered
    INVALID_CREDENTIALS and the fifth ACCOUNT_LOCKED; the row then has the
    counter at 5 and a lock that ends fifteen minutes after the fifth
    failure; five audit rows have been written; and from then on, while the
    row stays as it is, any login that reads the clock before the lock ends
    is refused with ACCOUNT_LOCKED, even with the right password.  (The
    fifth login is taken to reach its re-check less than fifteen minutes
    after it recorded the failure.) *)
Theorem X11_five_wrong_passwords_lock_the_account
    (username password ip_address user_agent : string)
    (w : World) (user : User.t) :
  users w !! username = Some user →
  User.username user = username →
  User.account_locked_until user = None →
  User.failed_login_attempts user = 0 →
  User.is_active user = true →
  check_password password (User.password user) = false →
  wall (ticks w + 6)%nat < wall (ticks w + 4)%nat + timedelta_minutes 15 →
  let run := login_attempts 5 username password ip_address user_agent w in
  let unlock_at := wall (ticks w + 4)%nat + timedelta_minutes 15 in
  run.1 = [_error_response "AUTH-001" "Invalid credentials";
           _error_response "AUTH-001" "Invalid credentials";
           _error_response "AUTH-001" "Invalid credentials";
           _error_response "AUTH-001" "Invalid credentials";
           _error_response "AUTH-003"
             "Too many failed attempts. Account locked for 15 minutes."]
  ∧ (∃ row, users run.2 !! username = Some row
            ∧ User.failed_login_attempts row = 5
            ∧ User.account_locked_until row = Some unlock_at)
  ∧ length (auth_logs run.2) = (length (auth_logs w) + 5)%nat
  ∧ ∀ any_password later,
      users later !! username = users run.2 !! username →
      wall (ticks later) < unlock_at →
      (login username any_password ip_address user_agent later).1
        = _error_response "AUTH-003"
            ("Account is locked. Try again after " +:+ strftime_HM unlock_at).
Proof.
  intros Huser Hname Hlock Hzero Hactive Hpw Htime run unlock_at.
  subst run. change 5%nat with (4 + 1)%nat. rewrite login_attempts_app.
  destruct (login_attempts_below 4 username password ip_address user_agent w user)
    as (Hres & Husers & Hbl & Hticks & Hlen); [done .. | lia |].
  set (w4 := (login_attempts 4 username password ip_address user_agent w).2) in *.
  set (u4 := Nat.iter 4 failure_counted user) in *.
  destruct (iter_failure_counted 4 user) as [Hcount4 Hlock4]. fold u4 in Hcount4, Hlock4.
  destruct (iter_failure_counted_profile 4 user)
    as (_ & Hname4 & Hpw4 & _ & _ & _ & _ & _ & Hactive4). fold u4 in Hname4, Hpw4, Hactive4.
  assert (Huser4 : users w4 !! username = Some u4).
  { rewrite Husers. apply lookup_insert_eq. }
  rewrite Hres.
  replace (login_attempts 1 username password ip_address user_agent w4)
    with ([(login username password ip_address user_agent w4).1],
          (login username password ip_address user_agent w4).2)
    by by rewrite login_attempts_S.
  cbn [fst snd].
  assert (Hname4' : User.username u4 = username) by congruence.
  assert (Hlock4' : User.account_locked_until u4 = None) by congruence.
  assert (Hactive4' : User.is_active u4 = true) by congruence.
  assert (Hpw4' : check_password password (User.password u4) = false) by congruence.
  assert (Hreach : 5 ≤ User.failed_login_attempts u4 + 1) by lia.
  assert (Htime4 : wall (S (S (ticks w4))) < wall (ticks w4) + timedelta_minutes 15).
  { rewrite Hticks. by replace (S (S (ticks w + 4)))%nat with (ticks w + 6)%nat by lia. }
  rewrite (login_wrong_password_locking username password ip_address user_agent
             w4 u4 Huser4 Hname4' Hlock4' Hactive4' Hpw4' Hreach Htime4).
  cbn [fst snd]. rewrite Hticks. fold unlock_at.
  set (u5 := locked_from (wall (ticks w + 4)%nat) (failure_counted u4)).
  split; [done |]. split; [| split].
  - exists u5. cbn [users]. rewrite lookup_insert_eq. split; [done |].
    split; [cbn; lia | done].
  - cbn [auth_logs]. rewrite length_app, Hlen. cbn. lia.
  - intros any_password later Hrow Hlt. cbn [users] in Hrow.
    rewrite lookup_insert_eq in Hrow.
    by rewrite (login_locked_run _ _ _ _ _ u5 unlock_at).
Qed.

(** X12: a lock that has lapsed restarts the count.  On an active account
    whose lock time is not in the future of the first clock reading of the
    login, a wrong password is answered INVALID_CREDENTIALS and leaves the
    row with the counter at 1 and no lock time, whatever the counter was. *)
Theorem X12_lapsed_lock_restarts_the_count
    (username password ip_address user_agent : string)
    (w : World) (user : User.t) (locked_until : Z) :
  users w !! username = Some user →
  User.username user = username →
  User.account_locked_until user = Some locked_until →
  locked_until ≤ wall (ticks w) →
  User.is_active user = true →
  check_password password (User.password user) = false →
  let result := (login username password ip_address user_agent w).1 in
  let w' := (login username password ip_address user_agent w).2 in
  result = _error_response "AUTH-001" "Invalid credentials"
  ∧ ∃ row, users w' !! username = Some row
           ∧ User.failed_login_attempts row = 1
           ∧ User.account_locked_until row = None
           ∧ same_profile row user.
Proof.
  intros Huser Hname Hlock Hlapsed Hactive Hpw result w'. subst result w'.
  pose proof (is_account_locked_lapsed user w locked_until Hlock Hlapsed) as Hchk.
  set (u1 := lapse_cleared user) in *.
  set (w1 := (save u1 _ (set_ticks S w)).2) in *.
  assert (Hsync1 : in_sync u1 w1).
  { pose proof (is_account_locked_in_sync user w) as H. rewrite Hchk in H.
    apply H. unfold in_sync. by rewrite Hname. }
  rewrite (login_wrong_password _ _ _ _ _ user u1 w1 Huser Hchk Hactive Hpw).
  assert (Hbelow : User.failed_login_attempts u1 + 1 < 5) by (unfold u1; cbn; lia).
  rewrite (increment_below_threshold u1 w1) by done. cbn [fst snd].
  set (u2 := failure_counted u1).
  set (w2 := (save u2 _ w1).2).
  assert (Hsync2 : in_sync u2 w2).
  { pose proof (increment_in_sync u1 w1 Hsync1) as H.
    by rewrite (increment_below_threshold u1 w1) in H by done. }
  rewrite _log_auth_event_run. cbn [snd].
  rewrite is_account_locked_unset by done. cbn [fst snd].
  split; [done |]. exists u2. split.
  { unfold in_sync in Hsync2.
    change (User.username u2) with (User.username user) in Hsync2.
    rewrite Hname in Hsync2. exact Hsync2. }
  split; [done |]. split; [done |]. by repeat split.
Qed.

(** ** The login and logout endpoints *)

(** The answers [login] can give. *)
Lemma login_result_shape username password ip_address user_agent w :
  let result := (login username password ip_address user_agent w).1 in
  (∃ access refresh projection,
     result = _success_response
                [("access_token", PyStr access);
                 ("refresh_token", PyStr refresh);
                 ("user", PyDict projection)])
  ∨ (∃ message, result = _error_response "AUTH-001" message)
  ∨ (∃ message, result = _error_response "AUTH-002" message)
  ∨ (∃ message, result = _error_response "AUTH-003" message).
Proof.
  intros result. subst result.
  destruct (users w !! username) as [user |] eqn:Huser.
  2:{ rewrite login_unknown_user by done. right; left. by eexists. }
  destruct (is_account_locked user w) as [[locked u1] w1] eqn:Hchk.
  destruct locked.
  { rewrite (login_locked _ _ _ _ _ user u1 w1) by done.
    right; right; right. by eexists. }
  destruct (User.is_active u1) eqn:Hactive.
  2:{ rewrite (login_inactive _ _ _ _ _ user u1 w1) by done.
      right; right; left. by eexists. }
  destruct (check_password password (User.password u1)) eqn:Hpw.
  - rewrite (login_success _ _ _ _ _ user u1 w1) by done. left. by eexists _, _, _.
  - rewrite (login_wrong_password _ _ _ _ _ user u1 w1) by done. cbn [fst].
    destruct (is_account_locked _ _).1.1.
    + right; right; right. by eexists.
    + right; left. by eexists.
Qed.

Lemma AuthViewSet_login_invalid META request_data w errors :
  LoginSerializer (with_client_info META request_data) = inr errors →
  AuthViewSet_login META request_data w
    = (mkResponse errors HTTP_400_BAD_REQUEST, w).
Proof.
  unfold AuthViewSet_login, with_client_info.
  destruct (get_client_info META) as [ip_address user_agent]. cbn [fst snd].
  by intros ->.
Qed.

Lemma AuthViewSet_login_valid META request_data w validated_data :
  LoginSerializer (with_client_info META request_data) = inl validated_data →
  let run := login (LoginData.username validated_data)
                   (LoginData.password validated_data)
                   (LoginData.ip_address validated_data)
                   (LoginData.user_agent validated_data) w in
  AuthViewSet_login META request_data w
    = (mkResponse run.1
         (if negb (from_option truthy false (dict_get "success" run.1)) then
            if py_in (dict_get "error_code" run.1) ["AUTH-001"] then 401
            else if py_in (dict_get "error_code" run.1) ["AUTH-002"] then 403
            else if py_in (dict_get "error_code" run.1) ["AUTH-003"] then 403
            else 400
          else 200),
       run.2).
Proof.
  unfold AuthViewSet_login, with_client_info.
  destruct (get_client_info META) as [ip_address user_agent]. cbn [fst snd].
  intros ->. unfold bind, ret.
  destruct (login _ _ _ _ w) as [result w']. cbn [fst snd].
  destruct (negb _); [| done].
  repeat (destruct (py_in _ _); [done |]). done.
Qed.

(** X13: the status codes of the login endpoint.  A body the serializer
    rejects (after the client address and agent have been filled in where
    the body lacks them) is answered 400 with the field errors, before the
    use case runs: no table changes and nothing is audited.  A body it
    accepts is answered with the result of login and with 200 exactly for a
    success, 401 exactly for AUTH-001 and 403 exactly for AUTH-002 or
    AUTH-003; the 400 fallback of the view is never taken. *)
Theorem X13_login_endpoint_status_codes
    (META : gmap string string) (request_data : gmap string PyVal) (w : World) :
  let response := (AuthViewSet_login META request_data w).1 in
  let w' := (AuthViewSet_login META request_data w).2 in
  (∀ errors,
     LoginSerializer (with_client_info META request_data) = inr errors →
     response = mkResponse errors 400 ∧ w' = w)
  ∧ (∀ validated_data,
       LoginSerializer (with_client_info META request_data) = inl validated_data →
       let run := login (LoginData.username validated_data)
                        (LoginData.password validated_data)
                        (LoginData.ip_address validated_data)
                        (LoginData.user_agent validated_data) w in
       data response = run.1
       ∧ w' = run.2
       ∧ (status_code response = 200
          ↔ dict_get "success" run.1 = Some (PyBool true))
       ∧ (status_code response = 401
          ↔ dict_get "error_code" run.1 = Some (PyStr "AUTH-001"))
       ∧ (status_code response = 403
          ↔ dict_get "error_code" run.1 = Some (PyStr "AUTH-002")
            ∨ dict_get "error_code" run.1 = Some (PyStr "AUTH-003"))
       ∧ status_code response ≠ 400).
Proof.
  intros response w'. subst response w'. split.
  - intros errors Herr. by rewrite (AuthViewSet_login_invalid _ _ _ errors).
  - intros validated_data Hvalid run.
    rewrite (AuthViewSet_login_valid _ _ _ validated_data Hvalid). fold run.
    cbn [fst snd data status_code].
    destruct (login_result_shape (LoginData.username validated_data)
                (LoginData.password validated_data)
                (LoginData.ip_address validated_data)
                (LoginData.user_agent validated_data) w)
      as [(a & r & u & Hres) | [[m Hres] | [[m Hres] | [m Hres]]]];
      fold run in Hres; rewrite Hres; cbn;
      (split; [done |]); (split; [done |]);
      repeat split; try done; try (by intros [? | ?]); auto.
Qed.

Lemma AuthViewSet_logout_run META request_data user w refresh_token :
  LogoutSerializer request_data = inl refresh_token →
  let run := logout user refresh_token (get_client_info META).1
               (get_client_info META).2 w in
  AuthViewSet_logout META request_data user w
    = (mkResponse run.1
         (if negb (from_option truthy false (dict_get "success" run.1))
          then 400 else 200),
       run.2).
Proof.
  unfold AuthViewSet_logout.
  destruct (get_client_info META) as [ip_address user_agent]. cbn [fst snd].
  intros ->. unfold bind, ret.
  destruct (logout _ _ _ _ w) as [result w']. cbn [fst snd].
  by destruct (negb _).
Qed.

(** X14: for a request that has passed the authentication gate, the logout
    endpoint answers 200 or 400, and 200 exactly when the body validates,
    the token library accepts the token, the token is not revoked yet, the
    client address is not empty and the database takes the audit row.
    Once the first three hold, the token is revoked whatever the status:
    the refresh endpoint answers 401 with AUTH-005 to that token for as long
    as its revocation record is in the table and the clock reads before the
    token's expiry. *)
Theorem X14_logout_endpoint_then_refresh
    (META : gmap string string) (request_data : RequestData)
    (user : User.t) (w : World) :
  let response := (AuthViewSet_logout META request_data user w).1 in
  let w' := (AuthViewSet_logout META request_data user w).2 in
  let ip_address := (get_client_info META).1 in
  let user_agent := (get_client_info META).2 in
  (status_code response = 200 ∨ status_code response = 400)
  ∧ (status_code response = 200
     ↔ ∃ refresh_token token_obj,
         LogoutSerializer request_data = inl refresh_token
         ∧ RefreshToken_parse (wall (ticks w)) refresh_token = inl token_obj
         ∧ blacklisted_tokens w !! refresh_token = None
         ∧ ip_address ≠ ""
         ∧ AuthLog_insert_error
             (AuthEventData.mk (User.username user) "logout" ip_address
                user_agent true "" (Some user)) = None)
  ∧ (∀ refresh_token token_obj refresh_data later,
       LogoutSerializer request_data = inl refresh_token →
       RefreshToken_parse (wall (ticks w)) refresh_token = inl token_obj →
       blacklisted_tokens w !! refresh_token = None →
       TokenRefreshSerializer refresh_data = inl refresh_token →
       blacklisted_tokens later !! refresh_token
         = blacklisted_tokens w' !! refresh_token →
       wall (ticks later) < token_exp token_obj * 1000000 →
       status_code (refresh refresh_data later).1 = 401
       ∧ dict_get "error_code" (data (refresh refresh_data later).1)
           = Some (PyStr "AUTH-005")).
Proof.
  intros response w' ip_address user_agent.
  subst response w' ip_address user_agent.
  fold (logout_event user (get_client_info META).1 (get_client_info META).2).
  destruct (LogoutSerializer request_data) as [tok | errors] eqn:Hser.
  2:{ unfold AuthViewSet_logout.
      destruct (get_client_info META) as [ip_address user_agent]. rewrite Hser.
      cbn. split; [by right |]. split; [| by intros].
      split; [done | by intros (? & ? & [=] & _)]. }
  rewrite (AuthViewSet_logout_run _ _ _ _ tok Hser). cbn [fst snd status_code].
  destruct (RefreshToken_parse (wall (ticks w)) tok) as [token_obj | e] eqn:Hparse.
  2:{ rewrite (logout_invalid_token _ _ _ _ _ e) by done. cbn.
      split; [by right |]. split; [| by intros ? ? ? ? [= <-]; congruence].
      split; [done |]. intros (? & ? & [= <-] & H & _). congruence. }
  destruct (blacklisted_tokens w !! tok) as [r |] eqn:Hrec.
  { rewrite (logout_duplicate _ _ _ _ _ token_obj r) by done. cbn.
    split; [by right |]. split; [| by intros ? ? ? ? [= <-]; congruence].
    split; [done |]. intros (? & ? & [= <-] & _ & H & _). congruence. }
  assert (Hlater_rec : ∀ tok' token_obj' refresh_data later,
            inl tok = inl (B := Dict) tok' →
            RefreshToken_parse (wall (ticks w)) tok' = inl token_obj' →
            blacklisted_tokens w !! tok' = None →
            TokenRefreshSerializer refresh_data = inl tok' →
            blacklisted_tokens later !! tok'
              = blacklisted_tokens
                  (logout user tok (get_client_info META).1
                     (get_client_info META).2 w).2 !! tok' →
            wall (ticks later) < token_exp token_obj' * 1000000 →
            status_code (refresh refresh_data later).1 = 401
            ∧ dict_get "error_code" (data (refresh refresh_data later).1)
                = Some (PyStr "AUTH-005")).
  { intros tok' token_obj' refresh_data later [= <-] Hparse' _ Href Hlater Hlt.
    assert (token_obj' = token_obj) as -> by congruence.
    destruct (logout_tables user tok (get_client_info META).1
                (get_client_info META).2 w token_obj Hparse Hrec)
      as (_ & Htable & _).
    rewrite Htable, lookup_insert_eq in Hlater.
    assert (Hrev : (is_blacklisted tok later).1 = true).
    { by rewrite (is_blacklisted_live tok later _ Hlater). }
    by rewrite (refresh_revoked refresh_data tok later Href Hrev). }
  destruct (audit_insert_error
              (logout_event user (get_client_info META).1
                 (get_client_info META).2)) as [e |] eqn:Haudit.
  - split; [| split; [| exact Hlater_rec]];
      rewrite (logout_audit_refused _ _ _ _ _ token_obj e) by done;
      cbn; [by right |].
    split; [done |]. intros (? & ? & _ & _ & _ & Hne & Hstored).
    assert (audit_insert_error
              (logout_event user (get_client_info META).1
                 (get_client_info META).2) = None)
      by by apply audit_insert_error_None.
    congruence.
  - split; [| split; [| exact Hlater_rec]];
      rewrite (logout_fresh _ _ _ _ _ token_obj) by done;
      cbn; [by left |].
    apply audit_insert_error_None in Haudit as [Hne Hstored].
    split; [| done]. intros _. by exists tok, token_obj.
Qed.

(** ** From login to refresh *)

Lemma login_blacklisted_tokens username password ip_address user_agent w :
  blacklisted_tokens (login username password ip_address user_agent w).2
    = blacklisted_tokens w.
Proof.
  destruct (users w !! username) as [user |] eqn:Huser.
  2:{ by rewrite login_unknown_user. }
  pose proof (is_account_locked_touches_only user w) as [_ Hbl1].
  destruct (is_account_locked user w) as [[locked u1] w1] eqn:Hchk.
  cbn [snd] in Hbl1.
  destruct locked.
  { by rewrite (login_locked _ _ _ _ _ user u1 w1). }
  destruct (User.is_active u1) eqn:Hactive.
  2:{ by rewrite (login_inactive _ _ _ _ _ user u1 w1). }
  destruct (check_password password (User.password u1)) eqn:Hpw.
  - by rewrite (login_success _ _ _ _ _ user u1 w1).
  - rewrite (login_wrong_password _ _ _ _ _ user u1 w1) by done. cbn [snd].
    pose proof (increment_touches_only u1 w1) as [_ Hbl2].
    destruct (is_account_locked_touches_only
                (increment_failed_attempts u1 w1).1
                (_log_auth_event
                   (login_failed_event username ip_address user_agent
                      "Invalid password"
                      (Some (increment_failed_attempts u1 w1).1))
                   (increment_failed_attempts u1 w1).2).2) as [_ ->].
    rewrite _log_auth_event_run. cbn. by rewrite Hbl2.
Qed.

(** X19: a login has no say in token refresh.  Whatever its arguments and
    its outcome, a failure that locks the account included, a login leaves
    the revocation table as it is, and a refresh after it gets the answer it
    would have got at that clock reading had the login not happened: locking
    an account revokes none of its refresh tokens. *)
Theorem X19_login_has_no_say_in_refresh
    (username password ip_address user_agent refresh_token : string) (w : World) :
  let w' := (login username password ip_address user_agent w).2 in
  blacklisted_tokens w' = blacklisted_tokens w
  ∧ (refresh_access_token refresh_token w').1
    = (refresh_access_token refresh_token (set_ticks (λ _, ticks w') w)).1.
Proof.
  intros w'. subst w'. split; [apply login_blacklisted_tokens |].
  apply refresh_access_token_answer; [| done].
  by rewrite login_blacklisted_tokens.
Qed.

(** ** The audit log in time order *)

Lemma is_blacklisted_frame_refresh refresh_token w :
  auth_logs (refresh_access_token refresh_token w).2 = auth_logs w.
Proof.
  unfold refresh_access_token, bind, timezone_now, ret.
  pose proof (is_blacklisted_frame refresh_token w) as [_ Hlogs].
  destruct (is_blacklisted refresh_token w) as [[] w1]; cbn [snd] in *; [done |].
  by destruct (RefreshToken_parse _ _).
Qed.

Lemma refresh_access_token_ticks refresh_token w :
  (ticks w ≤ ticks (refresh_access_token refresh_token w).2)%nat.
Proof.
  unfold refresh_access_token, bind, timezone_now, ret.
  destruct (blacklisted_tokens w !! refresh_token) as [r |] eqn:Hr.
  - destruct (Z_lt_le_dec (wall (ticks w)) (BlacklistedToken.expires_at r)).
    + rewrite (is_blacklisted_live refresh_token w r) by done. cbn. lia.
    + rewrite (is_blacklisted_expired refresh_token w r) by done.
      destruct (RefreshToken_parse _ _); cbn; lia.
  - rewrite is_blacklisted_absent by done.
    destruct (RefreshToken_parse _ _); cbn; lia.
Qed.

Lemma is_account_locked_ticks self w :
  (ticks w ≤ ticks (is_account_locked self w).2)%nat.
Proof.
  destruct (is_account_locked_cases self w)
    as [[_ ->] | [(l & _ & _ & ->) | (l & _ & _ & ->)]]; cbn; lia.
Qed.

Lemma increment_ticks self w :
  (ticks w ≤ ticks (increment_failed_attempts self w).2)%nat.
Proof.
  destruct (Z_lt_le_dec (User.failed_login_attempts self + 1) 5).
  - rewrite increment_below_threshold by done. cbn. lia.
  - rewrite increment_at_threshold by done. cbn. lia.
Qed.

(** The audit row of a login is stamped with a clock reading taken during
    that login. *)
Lemma login_audit_row_at username password ip_address user_agent w :
  ∃ (event_data : AuthEventData.t) (n : nat),
    auth_logs (login username password ip_address user_agent w).2
      = app (auth_logs w) [audit_row event_data (wall n)]
    ∧ (ticks w ≤ n)%nat
    ∧ (n < ticks (login username password ip_address user_agent w).2)%nat.
Proof.
  destruct (users w !! username) as [user |] eqn:Huser.
  2:{ rewrite login_unknown_user by done. eexists _, _. split; [done |].
      cbn. lia. }
  pose proof (is_account_locked_ticks user w) as Hticks1.
  pose proof (is_account_locked_logs user w) as Hlogs1.
  destruct (is_account_locked user w) as [[locked u1] w1] eqn:Hchk.
  cbn [snd] in Hticks1, Hlogs1.
  destruct locked.
  { rewrite (login_locked _ _ _ _ _ user u1 w1) by done.
    eexists _, _. rewrite _log_auth_event_run. cbn. rewrite Hlogs1.
    split; [done |]. lia. }
  destruct (User.is_active u1) eqn:Hactive.
  2:{ rewrite (login_inactive _ _ _ _ _ user u1 w1) by done.
      eexists _, _. rewrite _log_auth_event_run. cbn. rewrite Hlogs1.
      split; [done |]. lia. }
  destruct (check_password password (User.password u1)) eqn:Hpw.
  - rewrite (login_success _ _ _ _ _ user u1 w1) by done.
    eexists _, _. rewrite _log_auth_event_run. cbn. rewrite Hlogs1.
    split; [done |]. lia.
  - rewrite (login_wrong_password _ _ _ _ _ user u1 w1) by done.
    pose proof (increment_ticks u1 w1) as Hticks2.
    pose proof (increment_logs u1 w1) as Hlogs2.
    set (u2 := (increment_failed_attempts u1 w1).1) in *.
    set (w2 := (increment_failed_attempts u1 w1).2) in *.
    rewrite _log_auth_event_run. cbn [snd].
    set (w3 := set_auth_logs _ (set_ticks S w2)).
    pose proof (is_account_locked_ticks u2 w3) as Hticks4.
    exists (login_failed_event username ip_address user_agent
              "Invalid password" (Some u2)), (ticks w2).
    rewrite is_account_locked_logs. subst w3. cbn in Hticks4 |- *.
    rewrite Hlogs2, Hlogs1. split; [done |]. lia.
Qed.

Lemma audit_log_in_order_append w w' row n :
  monotone_clock →
  audit_log_in_order w →
  auth_logs w' = app (auth_logs w) [row] →
  AuthLog.created_at row = wall n →
  (ticks w ≤ n)%nat → (n ≤ ticks w')%nat →
  audit_log_in_order w'.
Proof.
  intros Hmono [Hsorted Hbound] Hlogs Hrow Hlow Hhigh. unfold audit_log_in_order.
  rewrite Hlogs. split.
  - apply StronglySorted_app_2; [| done | repeat constructor].
    intros x1 x2 Hx1 ->%list_elem_of_singleton. unfold oldest_first.
    rewrite Hrow. etrans; [by apply Hbound | by apply Hmono].
  - intros x [Hx | ->%list_elem_of_singleton]%elem_of_app.
    + etrans; [by apply Hbound |]. apply Hmono. lia.
    + rewrite Hrow. by apply Hmono.
Qed.

Lemma audit_log_in_order_later w w' :
  monotone_clock →
  audit_log_in_order w →
  auth_logs w' = auth_logs w →
  (ticks w ≤ ticks w')%nat →
  audit_log_in_order w'.
Proof.
  intros Hmono [Hsorted Hbound] Hlogs Hticks. unfold audit_log_in_order.
  rewrite Hlogs. split; [done |].
  intros x Hx. etrans; [by apply Hbound | by apply Hmono].
Qed.

(** X20: the audit log is kept in time order.  If the wall clock never runs
    backwards and the rows of the audit log are in the order of their
    creation times, none of them later than the current reading, then the
    same holds after a login, after a logout and after a token refresh,
    whatever their arguments and outcome; an empty log is in order. *)
Theorem X20_audit_log_stays_in_time_order (w : World) :
  monotone_clock →
  (auth_logs w = [] → audit_log_in_order w)
  ∧ (audit_log_in_order w →
     (∀ username password ip_address user_agent,
        audit_log_in_order (login username password ip_address user_agent w).2)
     ∧ (∀ user refresh_token ip_address user_agent,
          audit_log_in_order (logout user refresh_token ip_address user_agent w).2)
     ∧ (∀ refresh_token,
          audit_log_in_order (refresh_access_token refresh_token w).2)).
Proof.
  intros Hmono. split.
  { intros Hempty. unfold audit_log_in_order. rewrite Hempty.
    split; [constructor | by intros row ?%elem_of_nil]. }
  intros Hw. split; [| split].
  - intros username password ip_address user_agent.
    destruct (login_audit_row_at username password ip_address user_agent w)
      as (event_data & n & Hlogs & Hlow & Hhigh).
    apply (audit_log_in_order_append w _ (audit_row event_data (wall n)) n);
      [done | done | done | done | done | lia].
  - intros user refresh_token ip_address user_agent.
    destruct (RefreshToken_parse (wall (ticks w)) refresh_token)
      as [token_obj | e] eqn:Hparse.
    + destruct (blacklisted_tokens w !! refresh_token) as [r |] eqn:Hrec.
      * rewrite (logout_duplicate _ _ _ _ _ token_obj r) by done.
        apply (audit_log_in_order_later w); [done | done | done | cbn; lia].
      * destruct (audit_insert_error (logout_event user ip_address user_agent))
          as [e |] eqn:Haudit.
        -- rewrite (logout_audit_refused _ _ _ _ _ token_obj e) by done.
           apply (audit_log_in_order_later w); [done | done | done | cbn; lia].
        -- rewrite (logout_fresh _ _ _ _ _ token_obj) by done. cbn [snd].
           eapply (audit_log_in_order_append w _ _ (S (S (ticks w))));
             [done | done | done | done | lia | cbn; lia].
    + rewrite (logout_invalid_token _ _ _ _ _ e) by done.
      apply (audit_log_in_order_later w); [done | done | done | cbn; lia].
  - intros refresh_token.
    apply (audit_log_in_order_later w); [done | done | |].
    + apply is_blacklisted_frame_refresh.
    + apply refresh_access_token_ticks.
Qed.

End Auth.


(** ** The object-level permission *)


(** ** The role permissions *)

(** X16: the three role permissions form a hierarchy, and they agree with
    the helper methods of the user model.  Whoever passes IsAdminUser passes
    IsManagerOrAdmin, and whoever passes that passes IsViewerOrAbove; an
    authenticated user passes IsAdminUser exactly when is_admin says so and
    IsManagerOrAdmin exactly when is_manager_or_above says so; IsViewerOrAbove
    passes exactly the authenticated users whose role is admin, manager or
    viewer, so a user with any other role is refused by all three; the
    anonymous user is refused by all three; and a requester who passes
    IsAdminUser has the object permission of IsOwnerOrAdmin on every
    object. *)
Theorem X16_role_permissions_form_a_hierarchy (request_user : RequestUser) :
  (IsAdminUser.has_permission request_user = true →
   IsManagerOrAdmin.has_permission request_user = true)
  ∧ (IsManagerOrAdmin.has_permission request_user = true →
     IsViewerOrAbove.has_permission request_user = true)
  ∧ (IsViewerOrAbove.has_permission request_user = true
     ↔ ∃ u, request_user = Authenticated u
            ∧ (User.role u = "admin" ∨ User.role u = "manager"
               ∨ User.role u = "viewer"))
  ∧ (∀ u, IsAdminUser.has_permission (Authenticated u) = User.is_admin u
          ∧ IsManagerOrAdmin.has_permission (Authenticated u)
            = User.is_manager_or_above u)
  ∧ (IsAdminUser.has_permission AnonymousUser = false
     ∧ IsManagerOrAdmin.has_permission AnonymousUser = false
     ∧ IsViewerOrAbove.has_permission AnonymousUser = false)
  ∧ (IsAdminUser.has_permission request_user = true →
     ∀ obj, has_object_permission request_user obj = true).
Proof.
  unfold IsAdminUser.has_permission, IsManagerOrAdmin.has_permission,
    IsViewerOrAbove.has_permission, role_in, User.is_admin,
    User.is_manager_or_above, has_object_permission.
  destruct request_user as [| u]; cbn.
  - repeat split; try done; try (by intros (u & [=] & _));
      by rewrite ?orb_false_r.
  - destruct (String.eqb_spec (User.role u) "admin") as [Hadmin | Hadmin];
      destruct (String.eqb_spec (User.role u) "manager") as [Hmanager | Hmanager];
      destruct (String.eqb_spec (User.role u) "viewer") as [Hviewer | Hviewer];
      cbn; repeat split; try done; try (by eexists; eauto);
      try (intros (u' & [= <-] & [? | [? | ?]]); congruence);
      try (by rewrite ?orb_false_r);
      try (intros _ obj; by rewrite Hadmin).
Qed.

(** ** The rows a requester may list *)

(** X18: what UserViewSet.get_queryset hands out.  An admin gets the whole
    user table.  Anybody else gets only rows that carry the requester's own
    id; when the ids of the table are pairwise distinct and the requester's
    row is in it, that is exactly the requester's own row. *)
Theorem X18_non_admin_lists_only_their_own_row (user : User.t) (w : World) :
  (User.is_admin user = true → get_queryset user w = users w)
  ∧ (User.is_admin user = false →
     (∀ key row, get_queryset user w !! key = Some row →
                 users w !! key = Some row ∧ User.id row = User.id user)
     ∧ (users w !! User.username user = Some user →
        (∀ key1 key2 row1 row2,
           users w !! key1 = Some row1 → users w !! key2 = Some row2 →
           User.id row1 = User.id row2 → key1 = key2) →
        get_queryset user w = {[ User.username user := user ]})).
Proof.
  unfold get_queryset. split; [by intros -> | intros ->]. split.
  - intros key row Hrow. by apply map_lookup_filter_Some in Hrow.
  - intros Hown Hdistinct. apply map_eq. intros key.
    destruct (decide (key = User.username user)) as [-> | Hne].
    + rewrite lookup_singleton_eq. by apply map_lookup_filter_Some.
    + rewrite lookup_singleton_ne by done.
      destruct (filter _ (users w) !! key) as [row |] eqn:Hrow; [| done].
      apply map_lookup_filter_Some in Hrow as [Hrow Hid]. cbn in Hid.
      destruct Hne. by apply (Hdistinct key (User.username user) row user).
Qed.

(** ** The username pattern *)

Lemma string_app_cons c s t : String c s +:+ t = String c (s +:+ t).
Proof. reflexivity. Qed.

Lemma string_app_empty_l t : "" +:+ t = t.
Proof. reflexivity. Qed.

Lemma string_app_empty_r s : s +:+ "" = s.
Proof.
  induction s as [| c s IH]; [done |]. by rewrite string_app_cons, IH.
Qed.

Lemma after_username_chars_app body rest :
  all_username_chars body = true →
  after_username_chars (body +:+ rest) = after_username_chars rest.
Proof.
  induction body as [| c body IH]; [done |].
  rewrite string_app_cons. cbn [all_username_chars after_username_chars].
  intros [Hc Hbody]%andb_prop. rewrite Hc. by apply IH.
Qed.

(** A string is a run of class characters followed by what the matcher
    has left. *)
Lemma after_username_chars_split s :
  ∃ body, s = body +:+ after_username_chars s ∧ all_username_chars body = true.
Proof.
  induction s as [| c s (body & Hs & Hbody)]; [by exists "" |].
  cbn [after_username_chars].
  destruct (is_username_char c) eqn:Hc.
  - exists (String c body). rewrite string_app_cons. cbn [all_username_chars].
    rewrite Hc, Hbody. by rewrite <- Hs.
  - by exists "".
Qed.

Lemma newline_not_username_char :
  is_username_char (Ascii.ascii_of_nat 10) = false.
Proof. reflexivity. Qed.

(** X17: which usernames validate_username lets through.  It returns its
    argument unchanged exactly for a string made of one or more characters
    among a-z, A-Z, 0-9 and the underscore, or such a string followed by one
    final newline (the dollar of the pattern matches before it); every other
    string, the empty one included, is refused. *)
Theorem X17_validate_username_accepts (value : string) :
  (∀ validated, validate_username value = inl validated → validated = value)
  ∧ ((∃ validated, validate_username value = inl validated)
     ↔ ∃ body, body ≠ "" ∧ all_username_chars body = true
               ∧ (value = body ∨ value = body +:+ newline)).
Proof.
  unfold validate_username. split.
  { intros validated. destruct (negb _); by intros [=]. }
  split.
  - intros [validated Hok].
    destruct (re_match_username value) eqn:Hmatch; [| done].
    unfold re_match_username in Hmatch.
    destruct value as [| c rest]; [done |].
    apply andb_prop in Hmatch as [Hc Hend].
    destruct (after_username_chars_split (String c rest)) as (body & Hsplit & Hbody).
    assert (Hne : body ≠ "").
    { intros ->. rewrite string_app_empty_l in Hsplit. rewrite <- Hsplit in Hend.
      apply orb_prop in Hend as [Hend | Hend]; apply String.eqb_eq in Hend;
        [done |].
      injection Hend as -> _. by rewrite newline_not_username_char in Hc. }
    exists body. split; [done |]. split; [done |].
    apply orb_prop in Hend as [Hend | Hend]; apply String.eqb_eq in Hend;
      rewrite Hend in Hsplit.
    + left. by rewrite string_app_empty_r in Hsplit.
    + by right.
  - intros (body & Hne & Hbody & Hvalue).
    assert (Hmatch : re_match_username value = true).
    { destruct body as [| c body]; [done |].
      pose proof Hbody as Hall.
      cbn [all_username_chars] in Hbody. apply andb_prop in Hbody as [Hc _].
      unfold re_match_username.
      destruct Hvalue as [-> | ->].
      - rewrite Hc. cbn [andb].
        rewrite <- (string_app_empty_r (String c body)).
        by rewrite after_username_chars_app.
      - rewrite string_app_cons, Hc. cbn [andb].
        rewrite <- string_app_cons.
        by rewrite after_username_chars_app. }
    rewrite Hmatch. by eexists.
Qed.

(** ** The client address *)

Lemma occurs_split_head sep s : occurs sep (split_head sep s) = false.
Proof.
  induction s as [| c s IH]; [done |]. cbn.
  destruct (Ascii.eqb c sep) eqn:Hc; [done |]. cbn. by rewrite Hc.
Qed.

Lemma occurs_lstrip c s : occurs c s = false → occurs c (lstrip s) = false.
Proof.
  induction s as [| c' s IH]; [done |]. cbn.
  intros [Hc Hs]%orb_false_elim. destruct (isspace c'); [by apply IH |].
  cbn. by rewrite Hc, Hs.
Qed.

Lemma occurs_rstrip c s : occurs c s = false → occurs c (rstrip s) = false.
Proof.
  induction s as [| c' s IH]; [done |]. cbn.
  intros [Hc Hs]%orb_false_elim. destruct (_ && _); [done |].
  cbn. by rewrite Hc, IH.
Qed.

Lemma rstrip_idempotent s : rstrip (rstrip s) = rstrip s.
Proof.
  induction s as [| c s IH]; [done |]. cbn.
  destruct (String.eqb (rstrip s) "" && isspace c) eqn:Hdrop; [done |].
  cbn. by rewrite IH, Hdrop.
Qed.

(** What [lstrip] returns is empty or starts with a character that is not
    white space, and [rstrip] keeps it so. *)
Lemma lstrip_rstrip_lstrip s : lstrip (rstrip (lstrip s)) = rstrip (lstrip s).
Proof.
  induction s as [| c s IH]; [done |]. cbn [lstrip].
  destruct (isspace c) eqn:Hc; [done |].
  cbn [rstrip]. rewrite Hc, andb_false_r. cbn [lstrip]. by rewrite Hc.
Qed.

Lemma strip_idempotent s : strip (strip s) = strip s.
Proof. unfold strip. by rewrite lstrip_rstrip_lstrip, rstrip_idempotent. Qed.

Lemma string_app_assoc s t u : (s +:+ t) +:+ u = s +:+ (t +:+ u).
Proof.
  induction s as [| c s IH]; [done |]. by rewrite !string_app_cons, IH.
Qed.

(** [split_head] cuts the string at its first separator, or not at all. *)
Lemma split_head_split sep s :
  ∃ tail, s = split_head sep s +:+ tail
          ∧ (tail = "" ∨ ∃ t, tail = String sep t).
Proof.
  induction s as [| c s (tail & IH & Htail)].
  - exists "". split; [done | by left].
  - cbn [split_head]. destruct (Ascii.eqb_spec c sep) as [-> | Hne].
    + exists (String sep s). split; [done | right; by eexists].
    + exists tail. split; [| done]. by rewrite string_app_cons, <- IH.
Qed.

(** What [lstrip] and [rstrip] remove is white space. *)
Lemma lstrip_split s :
  ∃ before, s = before +:+ lstrip s ∧ all_space before = true.
Proof.
  induction s as [| c s (before & IH & Hspace)].
  - by exists "".
  - cbn [lstrip]. destruct (isspace c) eqn:Hc.
    + exists (String c before). rewrite string_app_cons, <- IH.
      split; [done |]. cbn. by rewrite Hc.
    + by exists "".
Qed.

Lemma rstrip_split s :
  ∃ after, s = rstrip s +:+ after ∧ all_space after = true.
Proof.
  induction s as [| c s (after & IH & Hspace)].
  - by exists "".
  - cbn [rstrip].
    destruct (String.eqb_spec (rstrip s) "") as [Hempty | Hne]; cbn [andb].
    + destruct (isspace c) eqn:Hc.
      * exists (String c s). split; [done |]. cbn. rewrite Hc. cbn.
        rewrite IH, Hempty. done.
      * exists after. split; [| done]. by rewrite string_app_cons, <- IH.
    + exists after. split; [| done]. by rewrite string_app_cons, <- IH.
Qed.

(** [rstrip] leaves no white space at the end, [lstrip] none at the
    start. *)
Lemma strip_split s :
  ∃ before after,
    s = before +:+ (strip s +:+ after)
    ∧ all_space before = true ∧ all_space after = true.
Proof.
  destruct (lstrip_split s) as (before & Hs & Hbefore).
  destruct (rstrip_split (lstrip s)) as (after & Hl & Hafter).
  exists before, after. unfold strip. by rewrite <- Hl, <- Hs.
Qed.

(** X15: the client address get_client_info reports.  With a non-empty
    X-Forwarded-For header the address is taken from the header alone,
    whatever REMOTE_ADDR says: it is the header's first comma-separated
    entry with the white space around it removed.  Said without the string
    functions: the header is white space, the address, white space, and
    then nothing or a comma and the rest; the address holds no comma and
    stripping it again changes nothing, so it neither starts nor ends with
    white space.  It is the empty string when the header starts with a
    comma.  With the header absent or empty the address
    is REMOTE_ADDR, or 0.0.0.0 when that is absent too.  The user agent is
    the User-Agent header, or the empty string. *)
Theorem X15_client_address (META : gmap string string) :
  (∀ c rest,
     META !! "HTTP_X_FORWARDED_FOR" = Some (String c rest) →
     let ip_address := (get_client_info META).1 in
     ip_address = strip (split_head comma (String c rest))
     ∧ (∃ before after tail,
          String c rest = before +:+ (ip_address +:+ (after +:+ tail))
          ∧ all_space before = true ∧ all_space after = true
          ∧ (tail = "" ∨ ∃ t, tail = String comma t))
     ∧ occurs comma ip_address = false
     ∧ strip ip_address = ip_address
     ∧ (c = comma → ip_address = "")
     ∧ ∀ remote_addr,
         (get_client_info (<[ "REMOTE_ADDR" := remote_addr ]> META)).1 = ip_address)
  ∧ (META !! "HTTP_X_FORWARDED_FOR" = None
     ∨ META !! "HTTP_X_FORWARDED_FOR" = Some "" →
     (get_client_info META).1 = default "0.0.0.0" (META !! "REMOTE_ADDR"))
  ∧ (get_client_info META).2 = default "" (META !! "HTTP_USER_AGENT").
Proof.
  unfold get_client_info. split; [| split].
  - intros c rest Hheader. cbn [fst]. rewrite Hheader.
    split; [done |]. split; [| split; [| split; [| split]]].
    + destruct (split_head_split comma (String c rest)) as (tail & Hs & Htail).
      destruct (strip_split (split_head comma (String c rest)))
        as (before & after & Hentry & Hbefore & Hafter).
      exists before, after, tail. split; [| done].
      rewrite <- !string_app_assoc.
      rewrite (string_app_assoc before), <- Hentry. exact Hs.
    + unfold strip. apply occurs_rstrip, occurs_lstrip, occurs_split_head.
    + apply strip_idempotent.
    + intros ->. done.
    + intros remote_addr. rewrite lookup_insert_ne by done. by rewrite Hheader.
  - cbn [fst]. by intros [-> | ->].
  - done.
Qed.

(** ** The theorems at work on the sample data *)

Lemma C1_witness :
  users (failed_attempts Sample.wall 3 "alice" Sample.world).2 !! "alice"
    = Some (User.set_failed_login_attempts 3 Sample.alice)
  ∧ users (failed_attempts Sample.wall 5 "alice" Sample.world).2 !! "alice"
    = Some (User.set_account_locked_until (Some 900000000)
              (User.set_failed_login_attempts 5 Sample.alice))
  ∧ lock_check Sample.wall "alice"
      (failed_attempts Sample.wall 5 "alice" Sample.world).2
    = (Some true,
       set_ticks S (failed_attempts Sample.wall 5 "alice" Sample.world).2).
Proof.
  destruct (C1_five_failures_lock_for_15_minutes
              Sample.wall "alice" Sample.alice Sample.world)
    as (Hrows & Hlocked & Hchecks).
  - vm_compute. reflexivity.
  - reflexivity.
  - reflexivity.
  - split; [exact (proj1 (Hrows 3%nat ltac:(lia))) |].
    split; [exact Hlocked |].
    apply (Hchecks _ Hlocked). vm_compute. reflexivity.
Defined.

Local Abbreviation sample_login :=
  (login Sample.wall Sample.check_password string Sample.RefreshToken_for_user
         Sample.set_claim Sample.access_token Sample.str Sample.strftime_HM).

Local Abbreviation sample_refresh_access_token :=
  (refresh_access_token Sample.wall string Sample.access_token Sample.str
                        Sample.RefreshToken_parse).

Local Abbreviation sample_refresh :=
  (refresh Sample.wall string Sample.access_token Sample.str
           Sample.RefreshToken_parse (option string) Sample.TokenRefreshSerializer).

Lemma sample_world_invariant : store_invariant Sample.world.
Proof.
  intros key row. unfold Sample.world; cbn [users]. intros H.
  repeat (apply lookup_insert_Some in H as [[_ <-] | [_ H]];
          [split; cbn; [lia | by intros []] |]).
  apply lookup_singleton_Some in H as [_ <-]. split; cbn; [lia | by intros []].
Qed.

Lemma C3_witness :
  Sample.RefreshToken_parse 0 "not-even-a-token" = inr "Token is invalid or expired"
  ∧ sample_refresh_access_token "not-even-a-token" Sample.revoked_world
    = (_error_response "AUTH-005" "Token has been revoked",
       set_ticks S Sample.revoked_world).
Proof.
  split; [reflexivity |].
  apply (C3_revoked_token_rejected_before_parsing
           Sample.wall string Sample.access_token Sample.str
           Sample.RefreshToken_parse "not-even-a-token" Sample.revoked_world
           (BlacklistedToken.mk "not-even-a-token" 1 "logout" 5000000 0)).
  - vm_compute. reflexivity.
  - vm_compute. reflexivity.
Defined.

(** The claim in C4 that a structurally invalid token gets 400, and that
    only a revoked token gets 401, fails: a token that is not revoked and
    that the token library rejects is answered with 401. *)
Lemma C4_counterexample_invalid_token_gets_401 :
  let response := (sample_refresh (Some "invalid.token.string") Sample.world).1 in
  (is_blacklisted Sample.wall "invalid.token.string" Sample.world).1 = false
  ∧ Sample.RefreshToken_parse (Sample.wall 0) "invalid.token.string"
    = inr "Token is invalid or expired"
  ∧ status_code response = 401
  ∧ status_code response ≠ 400.
Proof. vm_compute. repeat split; discriminate. Qed.

Lemma C4_witness :
  status_code (sample_refresh None Sample.world).1 = 400
  ∧ status_code (sample_refresh (Some "not-even-a-token") Sample.revoked_world).1 = 401
  ∧ status_code (sample_refresh (Some "invalid.token.string") Sample.world).1 = 401
  ∧ status_code (sample_refresh (Some "refresh:alice") Sample.world).1 = 200.
Proof.
  split; [| split; [| split]].
  - destruct (C4_refresh_status_codes
                Sample.wall string Sample.access_token Sample.str
                Sample.RefreshToken_parse (option string)
                Sample.TokenRefreshSerializer None Sample.world)
      as (H & _). by eapply H.
  - destruct (C4_refresh_status_codes
                Sample.wall string Sample.access_token Sample.str
                Sample.RefreshToken_parse (option string)
                Sample.TokenRefreshSerializer
                (Some "not-even-a-token") Sample.revoked_world)
      as (_ & H & _).
    apply (H "not-even-a-token"); [reflexivity | vm_compute; reflexivity].
  - destruct (C4_refresh_status_codes
                Sample.wall string Sample.access_token Sample.str
                Sample.RefreshToken_parse (option string)
                Sample.TokenRefreshSerializer
                (Some "invalid.token.string") Sample.world)
      as (_ & _ & H & _).
    apply (H "invalid.token.string" "Token is invalid or expired");
      [reflexivity | vm_compute; reflexivity | vm_compute; reflexivity].
  - destruct (C4_refresh_status_codes
                Sample.wall string Sample.access_token Sample.str
                Sample.RefreshToken_parse (option string)
                Sample.TokenRefreshSerializer
                (Some "refresh:alice") Sample.world)
      as (_ & _ & _ & H).
    apply (H "refresh:alice" "refresh:alice");
      [reflexivity | vm_compute; reflexivity | vm_compute; reflexivity].
Defined.


Lemma C6_witness :
  ∃ row,
    users (sample_login "alice" "Secret123!" "192.168.1.1" "Test" Sample.world).2
      !! "alice" = Some row
    ∧ User.failed_login_attempts row = 0
    ∧ User.account_locked_until row = None
    ∧ User.last_login_ip row = Some "192.168.1.1".
Proof.
  destruct (C6_successful_login
              Sample.wall Sample.check_password string
              Sample.RefreshToken_for_user Sample.set_claim Sample.access_token
              Sample.str Sample.strftime_HM
              "alice" "Secret123!" "192.168.1.1" "Test"
              Sample.world Sample.world Sample.alice Sample.alice)
    as ((row & Hrow & _ & Hcount & Hlock & Hip & _) & _).
  - vm_compute. reflexivity.
  - reflexivity.
  - reflexivity.
  - reflexivity.
  - vm_compute. reflexivity.
  - exists row. repeat split; assumption.
Defined.

Lemma C7_witness :
  store_invariant
    (sample_login "alice" "WrongPassword!" "192.168.1.1" "Test" Sample.world).2.
Proof.
  destruct (C7_security_invariant_preserved
              Sample.wall Sample.check_password string
              Sample.RefreshToken_for_user Sample.set_claim Sample.access_token
              Sample.str Sample.strftime_HM)
    as (_ & _ & _ & _ & Hlogin).
  apply Hlogin, sample_world_invariant.
Defined.

Lemma C8_witness :
  (is_blacklisted Sample.wall "not-even-a-token" Sample.revoked_world).1 = true
  ∧ blacklisted_tokens
      (is_blacklisted Sample.wall "not-even-a-token" Sample.revoked_world).2
    = blacklisted_tokens Sample.revoked_world.
Proof.
  destruct (C8_is_blacklisted_cases Sample.wall "not-even-a-token"
              Sample.revoked_world) as (Hlive & _).
  apply (Hlive (BlacklistedToken.mk "not-even-a-token" 1 "logout" 5000000 0)).
  - vm_compute. reflexivity.
  - vm_compute. reflexivity.
Defined.


(** ** The service tests of the repository, run on the model

    [dashboard/tests/test_auth_service.py], with the sample accounts in the
    place of the users the tests create. *)

Example test_login_with_wrong_password_fails :
  let run := sample_login "alice" "WrongPassword123!" "192.168.1.1" "Test" Sample.world in
  dict_get "success" run.1 = Some (PyBool false)
  ∧ dict_get "error_code" run.1 = Some (PyStr "AUTH-001")
  ∧ User.failed_login_attempts <$> users run.2 !! "alice" = Some 1.
Proof. vm_compute. auto. Qed.

Example test_login_with_nonexistent_user_fails :
  let run := sample_login "nonexistent" "Password123!" "192.168.1.1" "Test" Sample.world in
  run.1 = _error_response "AUTH-001" "Invalid credentials"
  ∧ AuthLog.user <$> auth_logs run.2 = [None]
  ∧ AuthLog.failure_reason <$> auth_logs run.2 = ["Invalid username"].
Proof. vm_compute. auto. Qed.

Example test_login_with_locked_account_fails :
  let run := sample_login "dave" "Password123!" "192.168.1.1" "Test" Sample.world in
  run.1 = _error_response "AUTH-003" "Account is locked. Try again after 00:15"
  ∧ users run.2 !! "dave" = Some Sample.dave.
Proof. vm_compute. auto. Qed.

Example test_successful_login_resets_failed_attempts :
  let run := sample_login "carol" "Password123!" "192.168.1.1" "Test" Sample.world in
  dict_get "success" run.1 = Some (PyBool true)
  ∧ User.failed_login_attempts <$> users run.2 !! "carol" = Some 0.
Proof. vm_compute. auto. Qed.

Example test_five_failed_logins_lock_account :
  let fail w := (sample_login "alice" "WrongPassword!" "192.168.1.1" "Test" w).2 in
  let w5 := fail (fail (fail (fail (fail Sample.world)))) in
  User.failed_login_attempts <$> users w5 !! "alice" = Some 5
  ∧ User.account_locked_until <$> users w5 !! "alice" = Some (Some 904000000)
  ∧ dict_get "error_code"
      (sample_login "alice" "Secret123!" "192.168.1.1" "Test" w5).1
    = Some (PyStr "AUTH-003")
  ∧ length (auth_logs w5) = 5%nat.
Proof. vm_compute. auto. Qed.

Example test_inactive_user_cannot_login :
  (sample_login "bob" "Password123!" "192.168.1.1" "Test" Sample.world).1
  = _error_response "AUTH-002" "Account is inactive. Please contact administrator.".
Proof. vm_compute. reflexivity. Qed.

Example test_login_creates_auth_log :
  let run := sample_login "carol" "Password123!" "192.168.1.100" "Mozilla/5.0" Sample.world in
  auth_logs run.2
  = [AuthLog.mk (Some 3) "carol" "login_success" "192.168.1.100" "Mozilla/5.0"
                true "" None 2000000].
Proof. vm_compute. reflexivity. Qed.

(** An expired revocation record is purged by the lookup, and the token is
    then judged by the token library alone. *)
Example refresh_after_the_record_expired :
  let late := set_ticks (λ _, 6%nat) Sample.revoked_world in
  let run := sample_refresh_access_token "not-even-a-token" late in
  dict_get "error_code" run.1 = Some (PyStr "AUTH-006")
  ∧ blacklisted_tokens run.2 !! "not-even-a-token" = None.
Proof. vm_compute. auto. Qed.

(** ** The further theorems at work on the sample data *)

Local Abbreviation sample_logout :=
  (logout Sample.wall string Sample.RefreshToken_parse Sample.token_exp
          Sample.IntegrityError_str Sample.NOT_NULL_str
          Sample.AuthLog_insert_error).

Local Abbreviation sample_login_attempts :=
  (login_attempts Sample.wall Sample.check_password string
     Sample.RefreshToken_for_user Sample.set_claim Sample.access_token
     Sample.str Sample.strftime_HM).

Local Abbreviation sample_view_login :=
  (AuthViewSet_login Sample.wall Sample.check_password string
     Sample.RefreshToken_for_user Sample.set_claim Sample.access_token
     Sample.str Sample.strftime_HM Sample.LoginSerializer).

Local Abbreviation sample_view_logout :=
  (AuthViewSet_logout Sample.wall string Sample.RefreshToken_parse
     (option string) Sample.token_exp Sample.IntegrityError_str
     Sample.NOT_NULL_str Sample.AuthLog_insert_error Sample.LogoutSerializer).

Lemma X1_witness :
  (sample_logout Sample.alice "refresh:alice" "192.168.1.1" "Test" Sample.world).1
    = _success_response [("message", PyStr "Logged out successfully")]
  ∧ (sample_logout Sample.alice "refresh:alice" "" "Test" Sample.world).1
    = _error_response "AUTH-004"
        "Logout failed: NOT NULL constraint failed: auth_logs.ip_address".
Proof.
  split.
  - destruct (X1_logout_revokes_and_audits
                Sample.wall string Sample.RefreshToken_parse Sample.token_exp
                Sample.IntegrityError_str Sample.NOT_NULL_str
                Sample.AuthLog_insert_error Sample.alice
                "refresh:alice" "192.168.1.1" "Test" Sample.world "refresh:alice")
      as (_ & _ & Hstored & _).
    + reflexivity.
    + vm_compute. reflexivity.
    + destruct Hstored as [Hresult _]; [discriminate | reflexivity |].
      exact Hresult.
  - destruct (X1_logout_revokes_and_audits
                Sample.wall string Sample.RefreshToken_parse Sample.token_exp
                Sample.IntegrityError_str Sample.NOT_NULL_str
                Sample.AuthLog_insert_error Sample.alice
                "refresh:alice" "" "Test" Sample.world "refresh:alice")
      as (_ & _ & _ & Hempty & _).
    + reflexivity.
    + vm_compute. reflexivity.
    + destruct Hempty as (_ & Hresult & _); [reflexivity |].
      exact (Hresult eq_refl).
Defined.

Lemma X2_witness :
  (sample_logout Sample.alice "fake.token.string" "192.168.1.1" "Test" Sample.world).1
  = _error_response "AUTH-004" "Invalid token: Token is invalid or expired".
Proof.
  destruct (X2_logout_with_rejected_token_writes_nothing
              Sample.wall string Sample.RefreshToken_parse Sample.token_exp
              Sample.IntegrityError_str
              Sample.NOT_NULL_str Sample.AuthLog_insert_error Sample.alice
              "fake.token.string" "192.168.1.1" "Test" Sample.world
              "Token is invalid or expired")
    as (Hresult & _).
  - reflexivity.
  - exact Hresult.
Defined.

Lemma X3_witness :
  blacklisted_tokens
    (sample_logout Sample.bob "not-even-a-token" "192.168.1.1" "Test"
       Sample.revoked_world).2
  = blacklisted_tokens Sample.revoked_world.
Proof.
  destruct (X3_second_logout_is_refused
              Sample.wall string Sample.RefreshToken_parse Sample.token_exp
              Sample.IntegrityError_str
              Sample.NOT_NULL_str Sample.AuthLog_insert_error Sample.bob
              "not-even-a-token" "192.168.1.1" "Test" Sample.revoked_world
              (BlacklistedToken.mk "not-even-a-token" 1 "logout" 5000000 0))
    as (_ & _ & _ & Hsame & _).
  - vm_compute. reflexivity.
  - exact Hsame.
Defined.

Lemma X4_witness :
  let w' := (sample_logout Sample.alice "refresh:alice" "192.168.1.1" "Test"
               Sample.world).2 in
  (sample_refresh_access_token "refresh:alice" w').1
  = _error_response "AUTH-005" "Token has been revoked".
Proof.
  destruct (X4_logout_then_refresh
              Sample.wall string Sample.access_token Sample.str
              Sample.RefreshToken_parse Sample.token_exp
              Sample.IntegrityError_str
              Sample.NOT_NULL_str Sample.AuthLog_insert_error Sample.alice
              "refresh:alice" "192.168.1.1" "Test" Sample.world "refresh:alice")
    as (Hrevoked & _).
  - reflexivity.
  - vm_compute. reflexivity.
  - intros w'. apply Hrevoked; [reflexivity | vm_compute; reflexivity].
Defined.

Lemma X5_witness :
  (sample_refresh_access_token "refresh:alice" Sample.world).1
  = (sample_refresh_access_token "refresh:alice"
       (set_users (λ _, ∅) Sample.world)).1.
Proof.
  apply (X5_refresh_ignores_the_user_table
           Sample.wall string Sample.access_token Sample.str
           Sample.RefreshToken_parse "refresh:alice"
           Sample.world (set_users (λ _, ∅) Sample.world));
    reflexivity.
Defined.

Lemma X6_witness :
  users (sample_login "dave" "Password123!" "192.168.1.1" "Test" Sample.world).2
  = users Sample.world.
Proof.
  destruct (X6_login_while_locked_changes_no_row
              Sample.wall Sample.check_password string
              Sample.RefreshToken_for_user Sample.set_claim Sample.access_token
              Sample.str Sample.strftime_HM
              "dave" "Password123!" "192.168.1.1" "Test"
              Sample.world Sample.dave 900000000)
    as (_ & Husers & _).
  - vm_compute. reflexivity.
  - reflexivity.
  - vm_compute. reflexivity.
  - exact Husers.
Defined.

Lemma X7_witness :
  (sample_login "bob" "WrongPassword!" "192.168.1.1" "Test" Sample.world).1
  = _error_response "AUTH-002" "Account is inactive. Please contact administrator.".
Proof.
  destruct (X7_login_on_inactive_account
              Sample.wall Sample.check_password string
              Sample.RefreshToken_for_user Sample.set_claim Sample.access_token
              Sample.str Sample.strftime_HM
              "bob" "WrongPassword!" "192.168.1.1" "Test"
              Sample.world Sample.bob)
    as (Hresult & _).
  - vm_compute. reflexivity.
  - reflexivity.
  - reflexivity.
  - exact Hresult.
Defined.

Lemma X8_witness :
  (sample_login "nobody" "Password123!" "192.168.1.1" "Test" Sample.world).1
  = (sample_login "carol" "WrongPassword!" "192.168.1.1" "Test" Sample.world).1.
Proof.
  destruct (X8_unknown_user_and_wrong_password_answer_alike
              Sample.wall Sample.check_password string
              Sample.RefreshToken_for_user Sample.set_claim Sample.access_token
              Sample.str Sample.strftime_HM
              "nobody" "Password123!" "192.168.1.1" "Test" Sample.world)
    as (Hunknown & _).
  destruct (X8_unknown_user_and_wrong_password_answer_alike
              Sample.wall Sample.check_password string
              Sample.RefreshToken_for_user Sample.set_claim Sample.access_token
              Sample.str Sample.strftime_HM
              "carol" "WrongPassword!" "192.168.1.1" "Test" Sample.world)
    as (_ & Hwrong).
  destruct Hunknown as (-> & _); [vm_compute; reflexivity |].
  symmetry. apply (Hwrong Sample.carol).
  - vm_compute. reflexivity.
  - reflexivity.
  - reflexivity.
  - reflexivity.
  - vm_compute. reflexivity.
  - vm_compute. reflexivity.
Defined.

Lemma X9_witness :
  users (sample_login "alice" "WrongPassword!" "192.168.1.1" "Test" Sample.world).2
    !! "carol"
  = users Sample.world !! "carol".
Proof.
  destruct (X9_login_touches_one_row_only
              Sample.wall Sample.check_password string
              Sample.RefreshToken_for_user Sample.set_claim Sample.access_token
              Sample.str Sample.strftime_HM
              "alice" "WrongPassword!" "192.168.1.1" "Test" Sample.world)
    as (Hothers & _).
  - intros row Hrow. vm_compute in Hrow. injection Hrow as <-. reflexivity.
  - apply Hothers. discriminate.
Defined.

Lemma sample_world_lockout_state :
  ∀ key row, users Sample.world !! key = Some row →
    (User.account_locked_until row = None
     ∧ 0 ≤ User.failed_login_attempts row < 5)
    ∨ (is_Some (User.account_locked_until row)
       ∧ User.failed_login_attempts row = 5).
Proof.
  intros key row. unfold Sample.world; cbn [users]. intros H.
  repeat (apply lookup_insert_Some in H as [[_ <-] | [_ H]];
          [cbn; first [left; split; [done | lia] | right; split; [by eexists | done]] |]).
  apply lookup_singleton_Some in H as [_ <-]. left. cbn. split; [done | lia].
Qed.

Lemma X10_witness :
  match users (sample_login "carol" "WrongPassword!" "192.168.1.1" "Test"
                 Sample.world).2 !! "carol" with
  | Some row => 0 ≤ User.failed_login_attempts row ≤ 5
  | None => False
  end.
Proof.
  destruct (users (sample_login "carol" "WrongPassword!" "192.168.1.1" "Test"
                     Sample.world).2 !! "carol") as [row |] eqn:Hrow.
  - destruct (X10_login_keeps_the_counter_within_0_and_5
                Sample.wall Sample.check_password string
                Sample.RefreshToken_for_user Sample.set_claim Sample.access_token
                Sample.str Sample.strftime_HM
                "carol" "WrongPassword!" "192.168.1.1" "Test" Sample.world
                sample_world_lockout_state "carol" row Hrow)
      as [[_ Hrange] | [_ Hfive]]; lia.
  - vm_compute in Hrow. discriminate Hrow.
Defined.

Lemma X11_witness :
  (sample_login_attempts 5 "alice" "WrongPassword!" "192.168.1.1" "Test"
     Sample.world).1
  = [_error_response "AUTH-001" "Invalid credentials";
     _error_response "AUTH-001" "Invalid credentials";
     _error_response "AUTH-001" "Invalid credentials";
     _error_response "AUTH-001" "Invalid credentials";
     _error_response "AUTH-003"
       "Too many failed attempts. Account locked for 15 minutes."].
Proof.
  destruct (X11_five_wrong_passwords_lock_the_account
              Sample.wall Sample.check_password string
              Sample.RefreshToken_for_user Sample.set_claim Sample.access_token
              Sample.str Sample.strftime_HM
              "alice" "WrongPassword!" "192.168.1.1" "Test"
              Sample.world Sample.alice)
    as (Hanswers & _).
  - vm_compute. reflexivity.
  - reflexivity.
  - reflexivity.
  - reflexivity.
  - reflexivity.
  - vm_compute. reflexivity.
  - vm_compute. reflexivity.
  - exact Hanswers.
Defined.

Lemma X12_witness :
  ∃ row,
    users (sample_login "dave" "WrongPassword!" "192.168.1.1" "Test"
             (set_ticks (λ _, 1000%nat) Sample.world)).2 !! "dave" = Some row
    ∧ User.failed_login_attempts row = 1
    ∧ User.account_locked_until row = None.
Proof.
  destruct (X12_lapsed_lock_restarts_the_count
              Sample.wall Sample.check_password string
              Sample.RefreshToken_for_user Sample.set_claim Sample.access_token
              Sample.str Sample.strftime_HM
              "dave" "WrongPassword!" "192.168.1.1" "Test"
              (set_ticks (λ _, 1000%nat) Sample.world) Sample.dave 900000000)
    as (_ & row & Hrow & Hcount & Hlock & _).
  - vm_compute. reflexivity.
  - reflexivity.
  - reflexivity.
  - vm_compute. discriminate.
  - reflexivity.
  - vm_compute. reflexivity.
  - exists row. repeat split; assumption.
Defined.

Lemma X13_witness :
  status_code
    (sample_view_login Sample.proxied
       (Sample.credentials "alice" "Secret123!") Sample.world).1 = 200
  ∧ status_code
      (sample_view_login Sample.proxied
         (Sample.credentials "al ice" "Secret123!") Sample.world).1 = 400.
Proof.
  split.
  - destruct (X13_login_endpoint_status_codes
                Sample.wall Sample.check_password string
                Sample.RefreshToken_for_user Sample.set_claim Sample.access_token
                Sample.str Sample.strftime_HM Sample.LoginSerializer
                Sample.proxied (Sample.credentials "alice" "Secret123!")
                Sample.world)
      as (_ & Hvalid).
    destruct (Hvalid (LoginData.mk "alice" "Secret123!" "203.0.113.7" "Mozilla/5.0"))
      as (_ & _ & Hok & _); [vm_compute; reflexivity |].
    apply Hok. vm_compute. reflexivity.
  - destruct (X13_login_endpoint_status_codes
                Sample.wall Sample.check_password string
                Sample.RefreshToken_for_user Sample.set_claim Sample.access_token
                Sample.str Sample.strftime_HM Sample.LoginSerializer
                Sample.proxied (Sample.credentials "al ice" "Secret123!")
                Sample.world)
      as (Hinvalid & _).
    destruct (Hinvalid
                [("username",
                  PyStr "Username must contain only alphanumeric characters and underscores")])
      as (-> & _); [vm_compute; reflexivity | reflexivity].
Defined.

Lemma X14_witness :
  status_code
    (sample_view_logout Sample.proxied (Some "refresh:alice") Sample.alice
       Sample.world).1 = 200
  ∧ status_code
      (sample_view_logout {[ "HTTP_X_FORWARDED_FOR" := ",10.0.0.1" ]}
         (Some "refresh:alice") Sample.alice Sample.world).1 = 400.
Proof.
  split.
  - destruct (X14_logout_endpoint_then_refresh
                Sample.wall string Sample.access_token Sample.str
                Sample.RefreshToken_parse (option string)
                Sample.TokenRefreshSerializer Sample.token_exp
                Sample.IntegrityError_str Sample.NOT_NULL_str
                Sample.AuthLog_insert_error Sample.LogoutSerializer
                Sample.proxied (Some "refresh:alice") Sample.alice Sample.world)
      as (_ & Hok & _).
    apply Hok. exists "refresh:alice", "refresh:alice".
    split; [reflexivity |]. split; [reflexivity |].
    split; [vm_compute; reflexivity |].
    split; [vm_compute; discriminate | reflexivity].
  - destruct (X14_logout_endpoint_then_refresh
                Sample.wall string Sample.access_token Sample.str
                Sample.RefreshToken_parse (option string)
                Sample.TokenRefreshSerializer Sample.token_exp
                Sample.IntegrityError_str Sample.NOT_NULL_str
                Sample.AuthLog_insert_error Sample.LogoutSerializer
                {[ "HTTP_X_FORWARDED_FOR" := ",10.0.0.1" ]}
                (Some "refresh:alice") Sample.alice Sample.world)
      as ([H200 | H400] & Hok & _); [| exact H400].
    apply Hok in H200 as (? & ? & _ & _ & _ & Hne & _).
    exfalso. apply Hne. vm_compute. reflexivity.
Defined.

Lemma X15_witness :
  (get_client_info Sample.proxied).1 = "203.0.113.7"
  ∧ occurs comma (get_client_info Sample.proxied).1 = false.
Proof.
  destruct (X15_client_address Sample.proxied) as (Hheader & _).
  destruct (Hheader (Ascii.ascii_of_nat 32) "203.0.113.7 , 10.0.0.1")
    as (Hip & _ & Hcomma & _); [vm_compute; reflexivity |].
  split; [| exact Hcomma].
  rewrite Hip. vm_compute. reflexivity.
Defined.

Lemma X16_witness :
  IsViewerOrAbove.has_permission (Authenticated Sample.root) = true.
Proof.
  destruct (X16_role_permissions_form_a_hierarchy (Authenticated Sample.root))
    as (Hadmin & Hmanager & _).
  apply Hmanager, Hadmin. reflexivity.
Defined.

Lemma X17_witness :
  (∃ validated, validate_username "alice_01" = inl validated)
  ∧ (∃ validated, validate_username ("alice" +:+ newline) = inl validated).
Proof.
  split.
  - apply (proj2 (X17_validate_username_accepts "alice_01")).
    exists "alice_01". split; [discriminate |]. split; [reflexivity | by left].
  - apply (proj2 (X17_validate_username_accepts ("alice" +:+ newline))).
    exists "alice". split; [discriminate |]. split; [reflexivity | by right].
Defined.

Lemma X18_witness :
  get_queryset Sample.alice (mkWorld {[ "alice" := Sample.alice ]} ∅ [] 0)
  = {[ "alice" := Sample.alice ]}.
Proof.
  destruct (X18_non_admin_lists_only_their_own_row Sample.alice
              (mkWorld {[ "alice" := Sample.alice ]} ∅ [] 0))
    as (_ & Hviewer).
  destruct (Hviewer eq_refl) as (_ & Hown).
  apply Hown.
  - apply lookup_singleton_eq.
  - intros key1 key2 row1 row2. cbn [users].
    intros [<- _]%lookup_singleton_Some [<- _]%lookup_singleton_Some _.
    reflexivity.
Defined.

Lemma sample_wall_monotone : monotone_clock Sample.wall.
Proof. intros n m Hnm. unfold Sample.wall. lia. Qed.

Lemma X20_witness :
  audit_log_in_order Sample.wall
    (sample_login "alice" "WrongPassword!" "192.168.1.1" "Test" Sample.world).2.
Proof.
  destruct (X20_audit_log_stays_in_time_order
              Sample.wall Sample.check_password string
              Sample.RefreshToken_for_user Sample.set_claim Sample.access_token
              Sample.str Sample.RefreshToken_parse Sample.strftime_HM
              Sample.token_exp Sample.IntegrityError_str
              Sample.NOT_NULL_str Sample.AuthLog_insert_error
              Sample.world sample_wall_monotone)
    as (Hempty & Hkept).
  destruct (Hkept (Hempty eq_refl)) as (Hlogin & _).
  apply Hlogin.
Defined.

(** ** The endpoints and the helpers on examples *)

Example login_endpoint_statuses :
  let status username password :=
    status_code (sample_view_login Sample.proxied
                   (Sample.credentials username password) Sample.world).1 in
  status "alice" "Secret123!" = 200
  ∧ status "alice" "WrongPassword!" = 401
  ∧ status "nobody" "Password123!" = 401
  ∧ status "bob" "Password123!" = 403
  ∧ status "dave" "Password123!" = 403.
Proof. vm_compute. auto. Qed.

Example login_endpoint_audits_the_forwarded_address :
  AuthLog.ip_address
    <$> auth_logs (sample_view_login Sample.proxied
                     (Sample.credentials "alice" "Secret123!") Sample.world).2
  = ["203.0.113.7"].
Proof. vm_compute. reflexivity. Qed.

Example logout_twice :
  let once := sample_logout Sample.alice "refresh:alice" "192.168.1.1" "Test"
                Sample.world in
  let twice := sample_logout Sample.alice "refresh:alice" "192.168.1.1" "Test"
                 once.2 in
  dict_get "success" once.1 = Some (PyBool true)
  ∧ dict_get "error_code" twice.1 = Some (PyStr "AUTH-004")
  ∧ length (auth_logs twice.2) = 1%nat.
Proof. vm_compute. auto. Qed.

(** A header that starts with a comma gives the empty address: the audit
    insert is refused and the endpoint answers 400, yet the token has been
    revoked. *)
Example logout_with_an_empty_address :
  let META : gmap string string := {[ "HTTP_X_FORWARDED_FOR" := ",10.0.0.1" ]} in
  let run := sample_view_logout META (Some "refresh:alice") Sample.alice
               Sample.world in
  status_code run.1 = 400
  ∧ dict_get "error_code" (data run.1) = Some (PyStr "AUTH-004")
  ∧ auth_logs run.2 = []
  ∧ (sample_refresh_access_token "refresh:alice" run.2).1
    = _error_response "AUTH-005" "Token has been revoked".
Proof. vm_compute. auto. Qed.

Example client_address_edge_cases :
  (get_client_info {[ "HTTP_X_FORWARDED_FOR" := ",10.0.0.1" ]}).1 = ""
  ∧ (get_client_info (<[ "HTTP_X_FORWARDED_FOR" := "" ]>
                        {[ "REMOTE_ADDR" := "10.0.0.9" ]})).1 = "10.0.0.9"
  ∧ get_client_info ∅ = ("0.0.0.0", "").
Proof. vm_compute. auto. Qed.

Example validate_username_examples :
  validate_username "test_user1" = inl "test_user1"
  ∧ validate_username ""
    = inr "Username must contain only alphanumeric characters and underscores"
  ∧ validate_username "test user"
    = inr "Username must contain only alphanumeric characters and underscores"
  ∧ validate_username ("test" +:+ newline +:+ newline)
    = inr "Username must contain only alphanumeric characters and underscores".
Proof. vm_compute. auto. Qed.
